(** * packet-decode: Ethernet / IPv4 / TCP header decoding

    A shallow embedding of [src/index.js] and the properties of its
    specification.

    Conventions of the embedding.
    - A JavaScript string is a [string]: a sequence of code units, here the
      code units 0..255 (Latin-1).
    - A JavaScript number is a [number].  The program only ever produces
      NaN, the negative zero and (small) integers, so these are the three
      cases of the type.
    - The operands of the bit operators are converted with [ToInt32]; the
      results of bit operators are 32-bit signed integers, kept as [Z].
    - An exception is a value [inl e] of a sum type; [inr v] is a normal
      return. *)

From Stdlib Require Import ZArith List String Ascii Bool Lia.
Import ListNotations.

Local Open Scope string_scope.
Local Open Scope Z_scope.

(* ===================================================================== *)
(** ** The part of the JavaScript runtime the program uses               *)
(* ===================================================================== *)

Module JS.

(** Numbers: NaN, -0, and the integers (with [Int 0] the positive zero). *)
Inductive number : Type :=
  | NaN
  | NegZero
  | Int (z : Z).

(** Exceptions: [new Error(msg)] thrown by the program, and the
    [TypeError] the runtime throws for a property access on [null]. *)
Inductive exn : Type :=
  | Error (msg : string)
  | TypeError.

Definition result (A : Type) : Type := (exn + A)%type.

(** Reduction of a mathematical integer to the signed 32-bit range. *)
Definition wrap32 (z : Z) : Z := (z + 2 ^ 31) mod 2 ^ 32 - 2 ^ 31.

(** [ToInt32]: NaN and both zeroes give 0. *)
Definition ToInt32 (x : number) : Z :=
  match x with
  | NaN => 0
  | NegZero => 0
  | Int z => wrap32 z
  end.

(** [a << k], [a >> k], [a & b], [a | b] on 32-bit signed integers. *)
Definition shl (a k : Z) : Z := wrap32 (Z.shiftl a (k mod 32)).
Definition sar (a k : Z) : Z := Z.shiftr a (k mod 32).
Definition band (a b : Z) : Z := Z.land a b.
Definition bor (a b : Z) : Z := Z.lor a b.

(** [x === y] on numbers: NaN equals nothing, the two zeroes are equal. *)
Definition strictEq (x y : number) : bool :=
  match x, y with
  | NaN, _ | _, NaN => false
  | NegZero, NegZero => true
  | NegZero, Int z | Int z, NegZero => z =? 0
  | Int a, Int b => a =? b
  end.

(** Code unit of a character. *)
Definition code (c : ascii) : Z := Z.of_N (N_of_ascii c).
Definition unit_ (z : Z) : ascii := ascii_of_N (Z.to_N z).

Definition between (lo hi z : Z) : bool := (lo <=? z) && (z <=? hi).

(** Line terminators (not matched by [.] in a regular expression) and
    white space ([\s], and what [parseInt] skips), below 256. *)
Definition isLineTerminator (c : ascii) : bool :=
  (code c =? 10) || (code c =? 13).

Definition isWhiteSpace (c : ascii) : bool :=
  between 9 13 (code c) || (code c =? 32) || (code c =? 160).

(** [String.prototype.toLowerCase] and [toUpperCase].  [toLowerCase] is
    the mapping of the code units below 256, each to one code unit; it
    says nothing of the characters from U+0100 on, some of which
    JavaScript maps to two code units.  [toUpperCase] is the mapping of
    the ASCII letters, which is all the program applies it to (the
    digits of a number). *)
Definition lowerChar (c : ascii) : ascii :=
  let k := code c in
  if between 65 90 k || (between 192 222 k && negb (k =? 215))
  then unit_ (k + 32) else c.

Definition upperChar (c : ascii) : ascii :=
  let k := code c in
  if between 97 122 k then unit_ (k - 32) else c.

Fixpoint mapString (f : ascii -> ascii) (s : string) : string :=
  match s with
  | EmptyString => EmptyString
  | String c r => String (f c) (mapString f r)
  end.

Definition toLowerCase : string -> string := mapString lowerChar.
Definition toUpperCase : string -> string := mapString upperChar.

(** [s.replace(/\s+/g, '')]: every white space character is dropped. *)
Fixpoint removeWhiteSpace (s : string) : string :=
  match s with
  | EmptyString => EmptyString
  | String c r =>
      if isWhiteSpace c then removeWhiteSpace r
      else String c (removeWhiteSpace r)
  end.

(** [s.match(/.{1,2}/g)]: the successive greedy matches of one or two
    characters other than line terminators; a position holding a line
    terminator matches nothing and is skipped.  No match at all gives
    [null], here [None]. *)
Fixpoint matchChunks (s : string) : list string :=
  match s with
  | EmptyString => []
  | String c r =>
      if isLineTerminator c then matchChunks r
      else
        match r with
        | EmptyString => [String c EmptyString]
        | String d r' =>
            if isLineTerminator d
            then String c EmptyString :: matchChunks r'
            else String c (String d EmptyString) :: matchChunks r'
        end
  end.

Definition match_1_2 (s : string) : option (list string) :=
  match matchChunks s with
  | [] => None
  | cs => Some cs
  end.

(** Value of a digit of [parseInt] and [toString(radix)]. *)
Definition digitValue (c : ascii) : option Z :=
  let k := code c in
  if between 48 57 k then Some (k - 48)
  else if between 97 122 k then Some (k - 87)
  else if between 65 90 k then Some (k - 55)
  else None.

Definition digitChar (d : Z) : ascii :=
  if d <? 10 then unit_ (48 + d) else unit_ (87 + d).

Fixpoint trimStart (s : string) : string :=
  match s with
  | String c r => if isWhiteSpace c then trimStart r else s
  | EmptyString => s
  end.

(** The values of the longest prefix of radix-[R] digits. *)
Fixpoint leadingDigits (R : Z) (s : string) : list Z :=
  match s with
  | EmptyString => []
  | String c r =>
      match digitValue c with
      | Some d => if d <? R then d :: leadingDigits R r else []
      | None => []
      end
  end.

Definition stripSign (s : string) : Z * string :=
  match s with
  | String c r =>
      if code c =? 45 then (-1, r)
      else if code c =? 43 then (1, r)
      else (1, s)
  | EmptyString => (1, s)
  end.

Definition hasHexPrefix (s : string) : bool :=
  match s with
  | String c (String d _) =>
      (code c =? 48) && ((code d =? 120) || (code d =? 88))
  | _ => false
  end.

Definition dropHexPrefix (s : string) : string :=
  match s with
  | String _ (String _ r) => r
  | _ => s
  end.

(** [parseInt(s, radix)], following the steps of the language
    definition.  The digit strings the program passes have at most two
    characters, so the value is exact. *)
Definition parseInt (s : string) (radix : Z) : number :=
  let '(sign, s1) := stripSign (trimStart s) in
  if negb (radix =? 0) && ((radix <? 2) || (36 <? radix)) then NaN
  else
    let stripPrefix := (radix =? 0) || (radix =? 16) in
    let R0 := if radix =? 0 then 10 else radix in
    let '(R, s2) :=
      if stripPrefix && hasHexPrefix s1 then (16, dropHexPrefix s1)
      else (R0, s1) in
    match leadingDigits R s2 with
    | [] => NaN
    | ds =>
        let mathInt := fold_left (fun acc d => acc * R + d) ds 0 in
        if mathInt =? 0
        then (if sign =? -1 then NegZero else Int 0)
        else Int (sign * mathInt)
    end.

(** Digits of a non-negative integer in a radix, most significant
    first. *)
Fixpoint digitsFrom (fuel : nat) (R n : Z) (acc : string) : string :=
  match fuel with
  | O => acc
  | S f =>
      let acc' := String (digitChar (n mod R)) acc in
      if n / R =? 0 then acc' else digitsFrom f R (n / R) acc'
  end.

Definition digits (R n : Z) : string :=
  digitsFrom (S (Z.to_nat (Z.log2 n))) R n EmptyString.

(** [x.toString(radix)], and [String(x)] for radix 10. *)
Definition toStringRadix (x : number) (R : Z) : string :=
  match x with
  | NaN => "NaN"
  | NegZero => "0"
  | Int z => if z <? 0 then "-" ++ digits R (- z) else digits R z
  end.

Definition toString (x : number) : string := toStringRadix x 10.

(** [s.padStart(n, fill)]. *)
Fixpoint fillTo (n : nat) (cur fill : string) : string :=
  match n with
  | O => EmptyString
  | S k =>
      match cur with
      | String c r => String c (fillTo k r fill)
      | EmptyString =>
          match fill with
          | String c r => String c (fillTo k r fill)
          | EmptyString => EmptyString
          end
      end
  end.

Definition padStart (s : string) (n : nat) (fill : string) : string :=
  fillTo (n - String.length s) fill fill ++ s.

(** [a.join(sep)] on an array of strings. *)
Fixpoint join (sep : string) (xs : list string) : string :=
  match xs with
  | [] => EmptyString
  | [x] => x
  | x :: r => x ++ sep ++ join sep r
  end.

(** [a.slice(start, end)] and [a.slice(start)]. *)
Definition relIndex (len i : Z) : Z :=
  if i <? 0 then Z.max (len + i) 0 else Z.min i len.

Definition slice {A : Type} (a : list A) (start : Z) (stop : option Z)
  : list A :=
  let len := Z.of_nat (List.length a) in
  let k := relIndex len start in
  let final := match stop with
               | None => len
               | Some e => relIndex len e
               end in
  firstn (Z.to_nat (Z.max (final - k) 0)) (skipn (Z.to_nat k) a).

(** [a[i]] on an array of numbers.  Past the end it is [undefined], whose
    numeric value is NaN; the program reads below a checked length only. *)
Definition idx (a : list number) (i : nat) : number := nth i a NaN.

(** [Buffer.from(array)]: every element is reduced to an octet. *)
Definition ToUint8 (x : number) : Z := ToInt32 x mod 256.
Definition Buffer_from (a : list number) : list Z := map ToUint8 a.

End JS.

Import JS.

(* ===================================================================== *)
(** ** Helper functions                                                  *)
(* ===================================================================== *)

(** Convert bytes to MAC address. *)
Definition bytesToMAC (bytes : list number) : string :=
  join ":"
    (map (fun b => toUpperCase (padStart (toStringRadix b 16) 2 "0")) bytes).

(** Convert bytes to IPv4 address. *)
Definition bytesToIP (bytes : list number) : string :=
  join "." (map (fun b => toStringRadix b 10) bytes).

(** Convert hex string to byte array.  The match gives [null] when the
    string has no character to match, and [null.map] throws. *)
Definition hexToBytes (hex : string) : result (list number) :=
  match match_1_2 hex with
  | None => inl TypeError
  | Some chunks => inr (map (fun b => parseInt b 16) chunks)
  end.

(* ===================================================================== *)
(** ** The three parsers                                                 *)
(* ===================================================================== *)

Module Eth.
Record t : Type := {
  destMAC : string;
  srcMAC : string;
  type : Z;
  data : list number
}.
End Eth.

Module IPv4.
Record t : Type := {
  version : Z;
  ihl : Z;
  dscp : Z;
  ecn : Z;
  totalLength : Z;
  identification : Z;
  flags : Z;
  fragmentOffset : Z;
  ttl : number;
  protocol : number;
  checksum : Z;
  srcIP : string;
  dstIP : string;
  data : list number
}.
End IPv4.

Module TCP.
Record flags_t : Type := {
  urg : bool;
  ack : bool;
  psh : bool;
  rst : bool;
  syn : bool;
  fin : bool
}.
Record t : Type := {
  srcPort : Z;
  dstPort : Z;
  seqNum : Z;
  ackNum : Z;
  dataOffset : Z;
  flags : flags_t;
  windowSize : Z;
  tcpChecksum : Z;
  urgentPointer : Z;
  data : list number
}.
End TCP.

(** The operand [bytes[i]] of a bit operator. *)
Definition i32 (bytes : list number) (i : nat) : Z := ToInt32 (idx bytes i).

(** [(bytes[i] << 8) | bytes[i+1]]. *)
Definition pair16 (bytes : list number) (i : nat) : Z :=
  bor (shl (i32 bytes i) 8) (i32 bytes (i + 1)).

(** [(bytes[i] << 24) | (bytes[i+1] << 16) | (bytes[i+2] << 8) | bytes[i+3]]. *)
Definition quad32 (bytes : list number) (i : nat) : Z :=
  bor (bor (bor (shl (i32 bytes i) 24) (shl (i32 bytes (i + 1)) 16))
           (shl (i32 bytes (i + 2)) 8))
      (i32 bytes (i + 3)).

(** Q1. Parse Ethernet frame. *)
Definition parseEthernetFrame (bytes : list number) : result Eth.t :=
  if (List.length bytes <? 14)%nat
  then inl (Error "Frame too short for valid Ethernet header")
  else
    let destMAC := bytesToMAC (slice bytes 0 (Some 6)) in
    let srcMAC := bytesToMAC (slice bytes 6 (Some 12)) in
    let type := pair16 bytes 12 in
    let data := slice bytes 14 None in
    inr {| Eth.destMAC := destMAC; Eth.srcMAC := srcMAC;
           Eth.type := type; Eth.data := data |}.

(** Q2. Parse IPv4 packet. *)
Definition parseIPv4Packet (bytes : list number) : result IPv4.t :=
  if (List.length bytes <? 20)%nat
  then inl (Error "Packet too short for valid IPv4 header")
  else
    let version := sar (i32 bytes 0) 4 in
    let ihl := band (i32 bytes 0) 15 in
    let dscp := sar (i32 bytes 1) 2 in
    let ecn := band (i32 bytes 1) 3 in
    let totalLength := pair16 bytes 2 in
    let identification := pair16 bytes 4 in
    let flags := sar (i32 bytes 6) 5 in
    let fragmentOffset := bor (shl (band (i32 bytes 6) 31) 8) (i32 bytes 7) in
    let ttl := idx bytes 8 in
    let protocol := idx bytes 9 in
    let checksum := pair16 bytes 10 in
    let srcIP := bytesToIP (slice bytes 12 (Some 16)) in
    let dstIP := bytesToIP (slice bytes 16 (Some 20)) in
    let data := slice bytes (ihl * 4) None in
    inr {| IPv4.version := version; IPv4.ihl := ihl; IPv4.dscp := dscp;
           IPv4.ecn := ecn; IPv4.totalLength := totalLength;
           IPv4.identification := identification; IPv4.flags := flags;
           IPv4.fragmentOffset := fragmentOffset; IPv4.ttl := ttl;
           IPv4.protocol := protocol; IPv4.checksum := checksum;
           IPv4.srcIP := srcIP; IPv4.dstIP := dstIP; IPv4.data := data |}.

(** Q3. Parse TCP segment. *)
Definition parseTCPSegment (bytes : list number) : result TCP.t :=
  if (List.length bytes <? 20)%nat
  then inl (Error "Segment too short for valid TCP header")
  else
    let srcPort := pair16 bytes 0 in
    let dstPort := pair16 bytes 2 in
    let seqNum := quad32 bytes 4 in
    let ackNum := quad32 bytes 8 in
    let dataOffset := sar (i32 bytes 12) 4 in
    let flags := band (i32 bytes 13) 63 in
    let urg := negb (band flags 32 =? 0) in
    let ack := negb (band flags 16 =? 0) in
    let psh := negb (band flags 8 =? 0) in
    let rst := negb (band flags 4 =? 0) in
    let syn := negb (band flags 2 =? 0) in
    let fin := negb (band flags 1 =? 0) in
    let windowSize := pair16 bytes 14 in
    let tcpChecksum := pair16 bytes 16 in
    let urgentPointer := pair16 bytes 18 in
    let data := slice bytes (dataOffset * 4) None in
    inr {| TCP.srcPort := srcPort; TCP.dstPort := dstPort;
           TCP.seqNum := seqNum; TCP.ackNum := ackNum;
           TCP.dataOffset := dataOffset;
           TCP.flags := {| TCP.urg := urg; TCP.ack := ack; TCP.psh := psh;
                           TCP.rst := rst; TCP.syn := syn; TCP.fin := fin |};
           TCP.windowSize := windowSize; TCP.tcpChecksum := tcpChecksum;
           TCP.urgentPointer := urgentPointer; TCP.data := data |}.

(* ===================================================================== *)
(** ** The main function                                                 *)
(* ===================================================================== *)

(** What a run of [main] shows: the lines given to [console.log], in
    order.  The last line of a full decode prints the TCP data as text;
    the conversion of octets to text is the runtime's, so that line is
    recorded with the octets of the [Buffer] it is made from. *)
Inductive output : Type :=
  | Log (line : string)
  | LogText (octets : list Z).

(** How a run ends: [rl.close(); return], or an uncaught exception. *)
Inductive completion : Type :=
  | Closed
  | Threw (e : exn).

(** A procedure writes lines and then either ends the run or goes on
    with a value. *)
Definition Proc (A : Type) : Type := (list output * (completion + A))%type.

Definition ret {A : Type} (a : A) : Proc A := ([], inr a).

Definition bind {A B : Type} (m : Proc A) (k : A -> Proc B) : Proc B :=
  match m with
  | (out, inl c) => (out, inl c)
  | (out, inr a) => let '(out', r) := k a in ((out ++ out')%list, r)
  end.

Definition log (line : string) : Proc unit := ([Log line], inr tt).
Definition logText (octets : list Z) : Proc unit := ([LogText octets], inr tt).
Definition close {A : Type} : Proc A := ([], inl Closed).

Definition attempt {A : Type} (r : result A) : Proc A :=
  match r with
  | inl e => ([], inl (Threw e))
  | inr a => ([], inr a)
  end.

Declare Scope proc_scope.
Delimit Scope proc_scope with proc.
Notation "x <- m ;; k" := (bind m (fun x => k))
  (at level 61, m at next level, right associativity) : proc_scope.
Notation "m ;; k" := (bind m (fun _ => k))
  (at level 61, right associativity) : proc_scope.

Definition LF : string := String "010"%char EmptyString.

Definition boolString (b : bool) : string := if b then "true" else "false".

(** The lines of the three reports. *)
Definition reportEthernet (eth : Eth.t) : Proc unit :=
 (log (LF ++ "=== Ethernet Frame ===") ;;
  log ("Destination MAC: " ++ Eth.destMAC eth) ;;
  log ("Source MAC:      " ++ Eth.srcMAC eth) ;;
  log ("Type:            0x"
       ++ padStart (toStringRadix (Int (Eth.type eth)) 16) 4 "0"))%proc.

Definition reportIPv4 (ip : IPv4.t) : Proc unit :=
 (log (LF ++ "=== IPv4 Packet ===") ;;
  log ("Version:              " ++ toString (Int (IPv4.version ip))) ;;
  log ("Header Length:        " ++ toString (Int (IPv4.ihl ip * 4))
       ++ " bytes") ;;
  log ("DSCP:                 " ++ toString (Int (IPv4.dscp ip))) ;;
  log ("ECN:                  " ++ toString (Int (IPv4.ecn ip))) ;;
  log ("Total Length:         " ++ toString (Int (IPv4.totalLength ip))
       ++ " bytes") ;;
  log ("Identification:       0x"
       ++ padStart (toStringRadix (Int (IPv4.identification ip)) 16) 4 "0") ;;
  log ("Flags:                0b"
       ++ padStart (toStringRadix (Int (IPv4.flags ip)) 2) 3 "0") ;;
  log ("Fragment Offset:      " ++ toString (Int (IPv4.fragmentOffset ip))) ;;
  log ("Time To Live (TTL):   " ++ toString (IPv4.ttl ip)) ;;
  log ("Protocol:             " ++ toString (IPv4.protocol ip)) ;;
  log ("Header Checksum:      0x"
       ++ padStart (toStringRadix (Int (IPv4.checksum ip)) 16) 4 "0") ;;
  log ("Source IP:            " ++ IPv4.srcIP ip) ;;
  log ("Destination IP:       " ++ IPv4.dstIP ip))%proc.

Definition reportTCP (tcp : TCP.t) : Proc unit :=
 (log (LF ++ "=== TCP Segment ===") ;;
  log ("Source Port:          " ++ toString (Int (TCP.srcPort tcp))) ;;
  log ("Destination Port:     " ++ toString (Int (TCP.dstPort tcp))) ;;
  log ("Sequence Number:      " ++ toString (Int (TCP.seqNum tcp))) ;;
  log ("Acknowledgment Number:" ++ toString (Int (TCP.ackNum tcp))) ;;
  log ("Data Offset:          " ++ toString (Int (TCP.dataOffset tcp))
       ++ " bytes") ;;
  log ("Flags:                URG=" ++ boolString (TCP.urg (TCP.flags tcp))
       ++ ", ACK=" ++ boolString (TCP.ack (TCP.flags tcp))
       ++ ", PSH=" ++ boolString (TCP.psh (TCP.flags tcp))
       ++ ", RST=" ++ boolString (TCP.rst (TCP.flags tcp))
       ++ ", SYN=" ++ boolString (TCP.syn (TCP.flags tcp))
       ++ ", FIN=" ++ boolString (TCP.fin (TCP.flags tcp))) ;;
  log ("Window Size:          " ++ toString (Int (TCP.windowSize tcp))) ;;
  log ("Checksum:             0x"
       ++ padStart (toStringRadix (Int (TCP.tcpChecksum tcp)) 16) 4 "0") ;;
  log ("Urgent Pointer:       " ++ toString (Int (TCP.urgentPointer tcp))) ;;
  logText (Buffer_from (TCP.data tcp)))%proc.

(** [main] from the byte array on (the statements after
    [const bytes = hexToBytes(hex)]). *)
Definition mainDecode (bytes : list number) : Proc unit :=
 (if (List.length bytes <? 14)%nat
  then log "Frame too short for valid Ethernet header" ;; close
  else
    (* Q1. Parse Ethernet Header. *)
    eth <- attempt (parseEthernetFrame bytes) ;;
    reportEthernet eth ;;
    (* IPv4 Decoding *)
    if negb (Eth.type eth =? 2048)
    then log "Non-IPv4 Ethernet frame! Decoding not implemented." ;; close
    else
      ip <- attempt (parseIPv4Packet (Eth.data eth)) ;;
      reportIPv4 ip ;;
      (* TCP Parsing *)
      if negb (strictEq (IPv4.protocol ip) (Int 6))
      then
        log (LF ++ "Non-TCP Protocol detected. Decoding not implemented for this protocol.") ;;
        close
      else
        tcp <- attempt (parseTCPSegment (IPv4.data ip)) ;;
        reportTCP tcp ;;
        close)%proc.

(** The input line is stripped of white space and lower-cased before it
    is decoded. *)
Definition cleanHex (answer : string) : string :=
  toLowerCase (removeWhiteSpace answer).

(** Main function to decode Ethernet frames and IPv4 packets, as a
    function of the line read from the terminal. *)
Definition main (answer : string) : Proc unit :=
 (let hex := cleanHex answer in
  bytes <- attempt (hexToBytes hex) ;;
  mainDecode bytes)%proc.

(** The result of a run that has ended. *)
Definition ended (out : list output) (c : completion) : Proc unit :=
  (out, inl c).

(** The lines a report writes. *)
Definition lines (p : Proc unit) : list output := fst p.

(** The whole of a run, from the question on.  [rl.question] writes its
    query and waits for a line.  When the input ends before a line is
    read the question is never answered: nothing more is written, the
    terminal is not closed and no exception is thrown.  Otherwise the
    run goes on with the line, as [main] has it. *)
Inductive terminal : Type :=
  | Question (query : string)
  | Written (o : output).

Definition mainRun (stdin : option string)
  : list terminal * option completion :=
  let asked := Question "Enter Ethernet frame in hex: " in
  match stdin with
  | None => ([asked], None)
  | Some answer =>
      (asked :: map Written (fst (main answer)),
       match snd (main answer) with
       | inl c => Some c
       | inr _ => None
       end)
  end.

(* ===================================================================== *)
(** ** Vocabulary of the specification                                   *)
(* ===================================================================== *)

(** The three truncation errors are the exceptions of the three length
    checks. *)
Definition TruncatedFrame : exn :=
  Error "Frame too short for valid Ethernet header".
Definition TruncatedPacket : exn :=
  Error "Packet too short for valid IPv4 header".
Definition TruncatedSegment : exn :=
  Error "Segment too short for valid TCP header".

(** A RawBuffer is a sequence of 8-bit unsigned values. *)
Definition isByte (x : number) : bool :=
  match x with
  | Int z => (0 <=? z) && (z <? 256)
  | _ => false
  end.

Definition RawBuffer (bytes : list number) : Prop :=
  forallb isByte bytes = true.

(** The value of the byte at an offset of a buffer. *)
Definition octet (bytes : list number) (i : nat) : Z :=
  match idx bytes i with
  | Int z => z
  | _ => 0
  end.

(** Unsigned big-endian integers of two and four bytes. *)
Definition be16 (b0 b1 : Z) : Z := b0 * 256 + b1.
Definition be32 (b0 b1 b2 b3 : Z) : Z :=
  ((b0 * 256 + b1) * 256 + b2) * 256 + b3.

(** A decoding fails when it ends with an exception. *)
Definition fails {A : Type} (r : result A) : Prop := exists e, r = inl e.

(** The lines the main function writes when it stops early. *)
Definition notIPv4 : output :=
  Log "Non-IPv4 Ethernet frame! Decoding not implemented.".
Definition notTCP : output :=
  Log (LF ++ "Non-TCP Protocol detected. Decoding not implemented for this protocol.").
Definition tooShort : output :=
  Log "Frame too short for valid Ethernet header".

(** The payload is the buffer from an offset inside its 20-byte header:
    its first bytes are header bytes. *)
Definition startsInsideHeader (payload bytes : list number) (offset : Z)
  : Prop :=
  0 <= offset < 20
  /\ payload = skipn (Z.to_nat offset) bytes
  /\ forall i : nat,
       (Z.to_nat offset + i < 20)%nat ->
       nth_error payload i = nth_error bytes (Z.to_nat offset + i)
       /\ nth_error payload i <> None.

(** Vocabulary: hexadecimal digits, strings the specification calls
    malformed, strings made of white space, and the chunks of two
    characters of a string. *)
Definition isHexDigit (c : ascii) : bool :=
  match digitValue c with
  | Some d => d <? 16
  | None => false
  end.

Fixpoint allChars (p : ascii -> bool) (s : string) : bool :=
  match s with
  | EmptyString => true
  | String c r => p c && allChars p r
  end.

Definition malformedHex (cleaned : string) : bool :=
  Nat.odd (String.length cleaned) || negb (allChars isHexDigit cleaned).

Definition allWhiteSpace : string -> bool := allChars isWhiteSpace.
Definition noWhiteSpace : string -> bool :=
  allChars (fun c => negb (isWhiteSpace c)).

Fixpoint pairs (s : string) : list string :=
  match s with
  | EmptyString => []
  | String c EmptyString => [String c EmptyString]
  | String c (String d r) => String c (String d EmptyString) :: pairs r
  end.

(** The first character of a chunk, as [parseInt] sees it. *)
Definition startsWith (p : ascii -> bool) (s : string) : bool :=
  match s with
  | String c _ => p c
  | EmptyString => false
  end.

Definition isSign (c : ascii) : bool := (code c =? 45) || (code c =? 43).

(** The claim of the specification: a malformed cleaned string makes the
    decoder fail. *)
Definition rejectsMalformedHex : Prop :=
  forall text,
    malformedHex (cleanHex text) = true -> fails (hexToBytes (cleanHex text)).

(** Vocabulary: the two hexadecimal digits of a byte, in upper or lower
    case; the hexadecimal string of a sequence of bytes; the
    colon-separated upper-case form of an address. *)
Definition hexDigitOf (upper : bool) (d : Z) : ascii :=
  let table := if upper then "0123456789ABCDEF" else "0123456789abcdef" in
  match String.get (Z.to_nat d) table with
  | Some c => c
  | None => "0"%char
  end.

Definition hexPair (upper : bool) (b : Z) : string :=
  String (hexDigitOf upper (b / 16))
    (String (hexDigitOf upper (b mod 16)) EmptyString).

Definition hexOfBytes (upper : bool) (bs : list Z) : string :=
  String.concat EmptyString (map (hexPair upper) bs).

Definition colonHex (bs : list Z) : string :=
  String.concat ":" (map (hexPair true) bs).

Definition isOctet (b : Z) : Prop := 0 <= b < 256.

(** Equality test of numbers as values (NaN is the value NaN). *)
Definition number_eqb (x y : number) : bool :=
  match x, y with
  | NaN, NaN => true
  | NegZero, NegZero => true
  | Int a, Int b => a =? b
  | _, _ => false
  end.

(** The 256 octets. *)
Definition octets : list Z := map Z.of_nat (seq 0 256).

(** The values of the [n] bytes of a buffer from offset [i]. *)
Definition octetsAt (bytes : list number) (i n : nat) : list Z :=
  map (octet bytes) (seq i n).

(** The decimal form of an octet, without leading zeroes, and the
    dot-separated decimal form of an address. *)
Definition decimalDigit (d : Z) : ascii := unit_ (48 + d).

Definition decimalOf (b : Z) : string :=
  if b <? 10 then String (decimalDigit b) EmptyString
  else if b <? 100
  then String (decimalDigit (b / 10))
         (String (decimalDigit (b mod 10)) EmptyString)
  else String (decimalDigit (b / 100))
         (String (decimalDigit (b / 10 mod 10))
            (String (decimalDigit (b mod 10)) EmptyString)).

Definition dotDecimal (bs : list Z) : string :=
  String.concat "." (map decimalOf bs).

(** The numbers the hex decoder can put in its array: NaN, the negative
    zero, and the integers from -15 to 255. *)
Definition decodable (x : number) : Prop :=
  match x with
  | Int z => -15 <= z <= 255
  | _ => True
  end.

(** The integer a chunk of hexadecimal digits is parsed to. *)
Definition chunkValue (chunk : string) : Z :=
  match parseInt chunk 16 with
  | Int z => z
  | _ => 0
  end.

(** The exceptions a run of the main function can end with. *)
Definition uncaught (c : completion) : Prop :=
  c = Threw TypeError \/ c = Threw TruncatedPacket
  \/ c = Threw TruncatedSegment.

(** What the terminal shows of a decoded layer: its heading and every
    field under its label, as the lines 114-117, 127-140 and 150-161 of
    the main function write them. *)
Definition shownEthernet (eth : Eth.t) : list output :=
  [Log (LF ++ "=== Ethernet Frame ===");
   Log ("Destination MAC: " ++ Eth.destMAC eth);
   Log ("Source MAC:      " ++ Eth.srcMAC eth);
   Log ("Type:            0x"
        ++ padStart (toStringRadix (Int (Eth.type eth)) 16) 4 "0")].

Definition shownIPv4 (ip : IPv4.t) : list output :=
  [Log (LF ++ "=== IPv4 Packet ===");
   Log ("Version:              " ++ toString (Int (IPv4.version ip)));
   Log ("Header Length:        " ++ toString (Int (IPv4.ihl ip * 4))
        ++ " bytes");
   Log ("DSCP:                 " ++ toString (Int (IPv4.dscp ip)));
   Log ("ECN:                  " ++ toString (Int (IPv4.ecn ip)));
   Log ("Total Length:         " ++ toString (Int (IPv4.totalLength ip))
        ++ " bytes");
   Log ("Identification:       0x"
        ++ padStart (toStringRadix (Int (IPv4.identification ip)) 16) 4 "0");
   Log ("Flags:                0b"
        ++ padStart (toStringRadix (Int (IPv4.flags ip)) 2) 3 "0");
   Log ("Fragment Offset:      " ++ toString (Int (IPv4.fragmentOffset ip)));
   Log ("Time To Live (TTL):   " ++ toString (IPv4.ttl ip));
   Log ("Protocol:             " ++ toString (IPv4.protocol ip));
   Log ("Header Checksum:      0x"
        ++ padStart (toStringRadix (Int (IPv4.checksum ip)) 16) 4 "0");
   Log ("Source IP:            " ++ IPv4.srcIP ip);
   Log ("Destination IP:       " ++ IPv4.dstIP ip)].

Definition shownTCP (tcp : TCP.t) : list output :=
  [Log (LF ++ "=== TCP Segment ===");
   Log ("Source Port:          " ++ toString (Int (TCP.srcPort tcp)));
   Log ("Destination Port:     " ++ toString (Int (TCP.dstPort tcp)));
   Log ("Sequence Number:      " ++ toString (Int (TCP.seqNum tcp)));
   Log ("Acknowledgment Number:" ++ toString (Int (TCP.ackNum tcp)));
   Log ("Data Offset:          " ++ toString (Int (TCP.dataOffset tcp))
        ++ " bytes");
   Log ("Flags:                URG=" ++ boolString (TCP.urg (TCP.flags tcp))
        ++ ", ACK=" ++ boolString (TCP.ack (TCP.flags tcp))
        ++ ", PSH=" ++ boolString (TCP.psh (TCP.flags tcp))
        ++ ", RST=" ++ boolString (TCP.rst (TCP.flags tcp))
        ++ ", SYN=" ++ boolString (TCP.syn (TCP.flags tcp))
        ++ ", FIN=" ++ boolString (TCP.fin (TCP.flags tcp)));
   Log ("Window Size:          " ++ toString (Int (TCP.windowSize tcp)));
   Log ("Checksum:             0x"
        ++ padStart (toStringRadix (Int (TCP.tcpChecksum tcp)) 16) 4 "0");
   Log ("Urgent Pointer:       " ++ toString (Int (TCP.urgentPointer tcp)));
   LogText (Buffer_from (TCP.data tcp))].

(* ===================================================================== *)
(** ** Sample inputs                                                     *)
(* ===================================================================== *)

(** A frame of thirteen bytes. *)
Definition thirteen : list number := repeat (Int 255) 13.

(** A 20-byte IPv4 header (version 4, five header words, protocol 6), a
    20-byte TCP header (five header words, SYN and ACK), and the 54-byte
    frame that carries them. *)
Definition ipHeader : list number :=
  map Int [69; 0; 0; 40; 18; 52; 64; 0; 64; 6; 0; 0;
           192; 168; 0; 1; 192; 168; 0; 2].

Definition tcpHeader : list number :=
  map Int [4; 210; 0; 80; 0; 0; 0; 1; 0; 0; 0; 0;
           80; 18; 32; 0; 0; 0; 0; 0].

Definition ethHeader (etherType : list Z) : list number :=
  map Int ([255; 255; 255; 255; 255; 255; 170; 170; 170; 170; 170; 170]
           ++ etherType).

Definition fullFrame : list number :=
  (ethHeader [8; 0] ++ ipHeader ++ tcpHeader)%list.


(** A buffer of 20 zero bytes: both header lengths are 0 and the
    payloads are the whole buffer. *)
Definition zeroHeader : list number := map Int (repeat 0 20).

(** A TCP header whose sequence and acknowledgment numbers have the top
    bit set: bytes 4-7 are 80 00 00 01 and bytes 8-11 are FF FF FF FF. *)
Definition highBitSegment : list number :=
  map Int [4; 210; 0; 80; 128; 0; 0; 1; 255; 255; 255; 255;
           80; 18; 32; 0; 0; 0; 0; 0].

(** Scenario A: a 14-byte frame of type 0x88B5. *)
Definition scenarioA : list number := ethHeader [136; 181].

Definition scenarioA_frame : Eth.t :=
  {| Eth.destMAC := "FF:FF:FF:FF:FF:FF";
     Eth.srcMAC := "AA:AA:AA:AA:AA:AA";
     Eth.type := 34997;
     Eth.data := [] |}.

(** A line of white space: space, tab, line feed, two spaces. *)
Definition blankLine : string :=
  String " "%char (String "009"%char (String "010"%char "  ")).

(** The address 00:1B:44:11:3A:B7. *)
Definition sampleAddress : list Z := [0; 27; 68; 17; 58; 183].

(** Scenario B: the line of a 54-byte frame with an IPv4 packet and a TCP
    segment without data. *)
Definition scenarioB : string :=
  "FFFFFFFFFFFF AAAAAAAAAAAA 0800 45000028 12344000 40060000 C0A80001 C0A80002 04D20050 00000001 00000000 50122000 00000000".

(** A 14-byte frame of type 0x0800: an Ethernet header and no packet. *)
Definition bareIPv4Frame : list number := ethHeader [8; 0].

(** A 54-byte frame whose IPv4 header announces six words: 16 bytes are
    left for the TCP segment. *)
Definition optionsFrame : list number :=
  (ethHeader [8; 0] ++ Int 70 :: tl ipHeader ++ tcpHeader)%list.

(** A 22-byte TCP segment with the six flags set, whose data offset of
    six words is beyond its end. *)
Definition allFlagsSegment : list number :=
  map Int [0; 80; 4; 210; 0; 0; 0; 1; 0; 0; 0; 2;
           96; 63; 255; 255; 18; 52; 0; 7; 104; 105].

(** The 54-byte frame followed by two bytes of TCP data. *)
Definition dataFrame : list number := (fullFrame ++ map Int [104; 105])%list.

(** A line with the chunk "-f" in the place of byte 12 of a TCP segment,
    and the 30 numbers it is decoded to: the chunk gives -15. *)
Definition negativeOffsetLine : string :=
  "010101010101010101010101-f020202020202020202020202020708090a".

Definition negativeOffsetSegment : list number :=
  map Int (repeat 1 12 ++ [-15] ++ repeat 2 13 ++ [7; 8; 9; 10]).


(** A 42-byte frame with an IPv4 packet of protocol 17 and eight bytes
    after the IPv4 header. *)
Definition udpFrame : list number :=
  (ethHeader [8; 0]
   ++ map Int [69; 0; 0; 28; 18; 52; 64; 0; 64; 17; 0; 0;
               192; 168; 0; 1; 192; 168; 0; 2]
   ++ map Int [0; 53; 16; 0; 0; 8; 0; 0])%list.

(* ===================================================================== *)
(** ** Arithmetic of the bit operators                                   *)
(* ===================================================================== *)

Section BitArithmetic.

Lemma wrap32_small (z : Z) : - 2 ^ 31 <= z < 2 ^ 31 -> wrap32 z = z.
Proof.
  intros H. unfold wrap32.
  rewrite Z.mod_small; lia.
Qed.

Lemma sar_div (a k : Z) : 0 <= k < 32 -> sar a k = a / 2 ^ k.
Proof.
  intros H. unfold sar.
  rewrite Z.mod_small by lia.
  apply Z.shiftr_div_pow2; lia.
Qed.

Lemma shl_mul (a k : Z) :
  0 <= k < 32 -> - 2 ^ 31 <= a * 2 ^ k < 2 ^ 31 -> shl a k = a * 2 ^ k.
Proof.
  intros Hk Ha. unfold shl.
  rewrite Z.mod_small by lia.
  rewrite Z.shiftl_mul_pow2 by lia.
  now apply wrap32_small.
Qed.

Lemma band_mask (a k : Z) : 0 <= k -> band a (2 ^ k - 1) = a mod 2 ^ k.
Proof.
  intros Hk. unfold band.
  replace (2 ^ k - 1) with (Z.ones k)
    by (rewrite Z.ones_equiv; apply Z.sub_1_r).
  now apply Z.land_ones.
Qed.

(** An integer whose low [k] bits are clear and an integer below [2^k]
    have no bit in common: their disjunction is their sum. *)
Lemma lor_disjoint (hi lo k : Z) :
  0 <= k -> 0 <= lo < 2 ^ k -> Z.lor (hi * 2 ^ k) lo = hi * 2 ^ k + lo.
Proof.
  intros Hk Hlo.
  assert (Hand : Z.land (hi * 2 ^ k) lo = 0).
  { apply Z.bits_inj'. intros n Hn.
    rewrite Z.land_spec, Z.bits_0.
    destruct (Z.lt_ge_cases n k) as [Hlt | Hge].
    - rewrite Z.mul_pow2_bits_low by lia. reflexivity.
    - replace (Z.testbit lo n) with false; [apply andb_false_r |].
      symmetry.
      destruct (Z.eq_dec lo 0) as [-> | Hne]; [apply Z.bits_0 |].
      apply Z.bits_above_log2; [lia |].
      apply Z.lt_le_trans with k; [| assumption].
      apply Z.log2_lt_pow2; lia. }
  rewrite <- Z.lxor_lor by assumption.
  symmetry. now apply Z.add_nocarry_lxor.
Qed.

Lemma bor_disjoint (hi lo k : Z) :
  0 <= k -> 0 <= lo < 2 ^ k -> bor (hi * 2 ^ k) lo = hi * 2 ^ k + lo.
Proof. apply lor_disjoint. Qed.

End BitArithmetic.

(* ===================================================================== *)
(** ** Arrays                                                            *)
(* ===================================================================== *)

Section Arrays.

Context {A : Type}.

Lemma slice_from (a : list A) (k : Z) :
  0 <= k -> slice a k None = skipn (Z.to_nat k) a.
Proof.
  intros Hk. unfold slice, relIndex.
  destruct (k <? 0) eqn:E; [apply Z.ltb_lt in E; lia |].
  set (len := Z.of_nat (List.length a)).
  destruct (Z.le_gt_cases k len) as [Hle | Hgt].
  - rewrite Z.min_l by assumption.
    apply firstn_all2.
    rewrite length_skipn. lia.
  - rewrite Z.min_r by lia.
    replace (Z.max (len - len) 0) with 0 by lia.
    rewrite (skipn_all2 a (n := Z.to_nat k)) by lia.
    reflexivity.
Qed.



End Arrays.

(* ===================================================================== *)
(** ** Reading the bytes of a buffer                                     *)
(* ===================================================================== *)

Section Buffers.

Lemma isByte_range (x : number) :
  isByte x = true -> exists z, x = Int z /\ 0 <= z < 256.
Proof.
  destruct x as [| | z]; simpl; try discriminate.
  intros H. apply andb_true_iff in H. destruct H as [H1 H2].
  exists z. split; [reflexivity | lia].
Qed.

Lemma RawBuffer_idx (bytes : list number) (i : nat) :
  RawBuffer bytes -> (i < List.length bytes)%nat ->
  idx bytes i = Int (octet bytes i) /\ 0 <= octet bytes i < 256.
Proof.
  intros Hb Hi. unfold octet, idx.
  assert (Hin : In (nth i bytes NaN) bytes) by now apply nth_In.
  unfold RawBuffer in Hb. rewrite forallb_forall in Hb.
  destruct (isByte_range _ (Hb _ Hin)) as (z & -> & Hz).
  split; [reflexivity | assumption].
Qed.

Lemma RawBuffer_i32 (bytes : list number) (i : nat) :
  RawBuffer bytes -> (i < List.length bytes)%nat ->
  i32 bytes i = octet bytes i /\ 0 <= octet bytes i < 256.
Proof.
  intros Hb Hi.
  destruct (RawBuffer_idx bytes i Hb Hi) as [E R].
  split; [| assumption].
  unfold i32. rewrite E. simpl. apply wrap32_small. lia.
Qed.

(** Two bytes combined by shift and disjunction are the unsigned
    big-endian integer of the two bytes. *)
Lemma pair16_be16 (bytes : list number) (i : nat) :
  RawBuffer bytes -> (i + 1 < List.length bytes)%nat ->
  pair16 bytes i = be16 (octet bytes i) (octet bytes (i + 1)).
Proof.
  intros Hb Hi. unfold pair16, be16.
  destruct (RawBuffer_i32 bytes i Hb) as [-> R0]; [lia |].
  destruct (RawBuffer_i32 bytes (i + 1) Hb) as [-> R1]; [lia |].
  rewrite shl_mul by lia.
  now rewrite (bor_disjoint _ _ 8) by lia.
Qed.

(** Four bytes combined by shift and disjunction are the unsigned
    big-endian integer of the four bytes reduced to the signed 32-bit
    range: the shift by 24 moves the top bit of the first byte into the
    sign bit. *)
Lemma quad32_wrap (bytes : list number) (i : nat) :
  RawBuffer bytes -> (i + 3 < List.length bytes)%nat ->
  quad32 bytes i
  = wrap32 (be32 (octet bytes i) (octet bytes (i + 1))
                 (octet bytes (i + 2)) (octet bytes (i + 3))).
Proof.
  intros Hb Hi. unfold quad32, be32.
  destruct (RawBuffer_i32 bytes i Hb) as [-> R0]; [lia |].
  destruct (RawBuffer_i32 bytes (i + 1) Hb) as [-> R1]; [lia |].
  destruct (RawBuffer_i32 bytes (i + 2) Hb) as [-> R2]; [lia |].
  destruct (RawBuffer_i32 bytes (i + 3) Hb) as [-> R3]; [lia |].
  set (b0 := octet bytes i) in *. set (b1 := octet bytes (i + 1)) in *.
  set (b2 := octet bytes (i + 2)) in *. set (b3 := octet bytes (i + 3)) in *.
  rewrite (shl_mul b1 16), (shl_mul b2 8) by lia.
  assert (Hhi : exists h, shl b0 24 = h * 2 ^ 24 /\ - 128 <= h < 128
                          /\ (h = b0 \/ h = b0 - 256)).
  { unfold shl. rewrite Z.mod_small by lia.
    rewrite Z.shiftl_mul_pow2 by lia.
    destruct (Z.lt_ge_cases b0 128) as [Hlt | Hge].
    - exists b0. rewrite wrap32_small by lia. lia.
    - exists (b0 - 256). unfold wrap32.
      split; [| lia].
      replace (b0 * 2 ^ 24 + 2 ^ 31)
        with ((b0 - 256) * 2 ^ 24 + 2 ^ 31 + 1 * 2 ^ 32) by lia.
      rewrite Z.mod_add by lia.
      rewrite Z.mod_small; lia. }
  destruct Hhi as (h & -> & Rh & Hh).
  rewrite (bor_disjoint h (b1 * 2 ^ 16) 24) by lia.
  replace (h * 2 ^ 24 + b1 * 2 ^ 16) with ((h * 2 ^ 8 + b1) * 2 ^ 16) by lia.
  rewrite (bor_disjoint _ (b2 * 2 ^ 8) 16) by lia.
  replace ((h * 2 ^ 8 + b1) * 2 ^ 16 + b2 * 2 ^ 8)
    with ((h * 2 ^ 16 + b1 * 2 ^ 8 + b2) * 2 ^ 8) by lia.
  rewrite (bor_disjoint _ b3 8) by lia.
  destruct Hh as [-> | ->].
  - rewrite wrap32_small; lia.
  - unfold wrap32.
    replace (((b0 * 256 + b1) * 256 + b2) * 256 + b3 + 2 ^ 31)
      with (((b0 - 256) * 2 ^ 16 + b1 * 2 ^ 8 + b2) * 2 ^ 8 + b3 + 2 ^ 31
            + 1 * 2 ^ 32) by lia.
    rewrite Z.mod_add by lia.
    rewrite Z.mod_small; lia.
Qed.

End Buffers.

(* ===================================================================== *)
(** ** The length checks of the parsers                                  *)
(* ===================================================================== *)

Ltac length_test :=
  match goal with
  | |- context [(List.length ?b <? ?n)%nat] =>
      first
        [ replace (List.length b <? n)%nat with true
            by (symmetry; apply Nat.ltb_lt; lia)
        | replace (List.length b <? n)%nat with false
            by (symmetry; apply Nat.ltb_ge; lia) ]
  end.

Section LengthChecks.

Variable bytes : list number.

Lemma parseEthernetFrame_short :
  (List.length bytes < 14)%nat ->
  parseEthernetFrame bytes = inl TruncatedFrame.
Proof. intros H. unfold parseEthernetFrame. length_test. reflexivity. Qed.

Lemma parseEthernetFrame_long :
  (14 <= List.length bytes)%nat ->
  exists eth, parseEthernetFrame bytes = inr eth
              /\ Eth.type eth = pair16 bytes 12
              /\ Eth.data eth = skipn 14 bytes.
Proof.
  intros H. unfold parseEthernetFrame. length_test.
  eexists. split; [reflexivity |]. simpl.
  split; [reflexivity |]. now rewrite slice_from by lia.
Qed.

Lemma parseIPv4Packet_short :
  (List.length bytes < 20)%nat ->
  parseIPv4Packet bytes = inl TruncatedPacket.
Proof. intros H. unfold parseIPv4Packet. length_test. reflexivity. Qed.

Lemma ihl_range : 0 <= band (i32 bytes 0) 15 <= 15.
Proof.
  change 15 with (2 ^ 4 - 1) at 1 2.
  rewrite band_mask by lia.
  pose proof (Z.mod_pos_bound (i32 bytes 0) (2 ^ 4)). lia.
Qed.

Lemma parseIPv4Packet_long :
  (20 <= List.length bytes)%nat ->
  exists ip, parseIPv4Packet bytes = inr ip
             /\ IPv4.ihl ip = band (i32 bytes 0) 15
             /\ IPv4.protocol ip = idx bytes 9
             /\ IPv4.data ip = skipn (Z.to_nat (IPv4.ihl ip * 4)) bytes.
Proof.
  intros H. unfold parseIPv4Packet. length_test.
  eexists. split; [reflexivity |]. simpl.
  split; [reflexivity |]. split; [reflexivity |].
  pose proof ihl_range. now rewrite slice_from by lia.
Qed.

Lemma parseTCPSegment_short :
  (List.length bytes < 20)%nat ->
  parseTCPSegment bytes = inl TruncatedSegment.
Proof. intros H. unfold parseTCPSegment. length_test. reflexivity. Qed.

Lemma parseTCPSegment_long :
  (20 <= List.length bytes)%nat ->
  exists tcp, parseTCPSegment bytes = inr tcp
              /\ TCP.dataOffset tcp = sar (i32 bytes 12) 4
              /\ TCP.seqNum tcp = quad32 bytes 4
              /\ TCP.ackNum tcp = quad32 bytes 8
              /\ TCP.data tcp = slice bytes (TCP.dataOffset tcp * 4) None.
Proof.
  intros H. unfold parseTCPSegment. length_test.
  eexists. split; [reflexivity |]. simpl. repeat split.
Qed.

End LengthChecks.

(* ===================================================================== *)
(** ** Running the main function                                         *)
(* ===================================================================== *)

Section Procedures.

Context {A B : Type}.

Lemma bind_attempt_ok (a : A) (k : A -> Proc B) :
  bind (attempt (inr a)) k = k a.
Proof. unfold bind, attempt. now destruct (k a). Qed.

Lemma bind_attempt_err (e : exn) (k : A -> Proc B) :
  bind (attempt (inl e)) k = ([], inl (Threw e)).
Proof. reflexivity. Qed.

Lemma bind_continues (p : Proc unit) (k : unit -> Proc B) :
  snd p = inr tt ->
  bind p k = ((fst p ++ fst (k tt))%list, snd (k tt)).
Proof.
  destruct p as [out r]. simpl. intros ->.
  now destruct (k tt).
Qed.

End Procedures.

Lemma reportEthernet_continues (eth : Eth.t) :
  snd (reportEthernet eth) = inr tt.
Proof. reflexivity. Qed.

Lemma reportIPv4_continues (ip : IPv4.t) : snd (reportIPv4 ip) = inr tt.
Proof. reflexivity. Qed.

Lemma reportTCP_continues (tcp : TCP.t) : snd (reportTCP tcp) = inr tt.
Proof. reflexivity. Qed.

Lemma strictEq_6 (x : number) : strictEq x (Int 6) = true <-> x = Int 6.
Proof.
  destruct x as [| | z]; simpl; split; intros H; try discriminate.
  - apply Z.eqb_eq in H. now subst.
  - injection H as ->. reflexivity.
Qed.

Section Dispatch.

Variable bytes : list number.
Variable eth : Eth.t.
Hypothesis Heth : parseEthernetFrame bytes = inr eth.

Lemma mainDecode_short (bs : list number) :
  (List.length bs < 14)%nat -> mainDecode bs = ended [tooShort] Closed.
Proof. intros H. unfold mainDecode. length_test. reflexivity. Qed.

Let afterEthernet : Proc unit :=
  (if negb (Eth.type eth =? 2048)
   then log "Non-IPv4 Ethernet frame! Decoding not implemented." ;; close
   else
     ip <- attempt (parseIPv4Packet (Eth.data eth)) ;;
     reportIPv4 ip ;;
     if negb (strictEq (IPv4.protocol ip) (Int 6))
     then
       log (LF ++ "Non-TCP Protocol detected. Decoding not implemented for this protocol.") ;;
       close
     else
       tcp <- attempt (parseTCPSegment (IPv4.data ip)) ;;
       reportTCP tcp ;;
       close)%proc.

Lemma mainDecode_afterEthernet :
  mainDecode bytes
  = ((lines (reportEthernet eth) ++ fst afterEthernet)%list,
     snd afterEthernet).
Proof.
  assert (Hlen : (14 <= List.length bytes)%nat).
  { destruct (Nat.lt_ge_cases (List.length bytes) 14) as [Hlt | Hge];
      [| assumption].
    rewrite (parseEthernetFrame_short bytes Hlt) in Heth. discriminate. }
  unfold mainDecode. length_test.
  rewrite Heth, bind_attempt_ok.
  now rewrite bind_continues by apply reportEthernet_continues.
Qed.

Lemma mainDecode_not_IPv4 :
  Eth.type eth <> 2048 ->
  mainDecode bytes = ended (lines (reportEthernet eth) ++ [notIPv4]) Closed.
Proof.
  intros H. rewrite mainDecode_afterEthernet. unfold afterEthernet.
  apply Z.eqb_neq in H. rewrite H. reflexivity.
Qed.

Lemma mainDecode_IPv4_throws (e : exn) :
  Eth.type eth = 2048 ->
  parseIPv4Packet (Eth.data eth) = inl e ->
  mainDecode bytes = ended (lines (reportEthernet eth)) (Threw e).
Proof.
  intros H He. rewrite mainDecode_afterEthernet. unfold afterEthernet.
  rewrite H, He, bind_attempt_err.
  change (negb (2048 =? 2048)) with false. cbn [fst snd].
  now rewrite app_nil_r.
Qed.

Section WithIPv4.

Variable ip : IPv4.t.
Hypothesis Htype : Eth.type eth = 2048.
Hypothesis Hip : parseIPv4Packet (Eth.data eth) = inr ip.

Let afterIPv4 : Proc unit :=
  (if negb (strictEq (IPv4.protocol ip) (Int 6))
   then
     log (LF ++ "Non-TCP Protocol detected. Decoding not implemented for this protocol.") ;;
     close
   else
     tcp <- attempt (parseTCPSegment (IPv4.data ip)) ;;
     reportTCP tcp ;;
     close)%proc.

Lemma mainDecode_afterIPv4 :
  mainDecode bytes
  = ((lines (reportEthernet eth) ++ lines (reportIPv4 ip)
      ++ fst afterIPv4)%list, snd afterIPv4).
Proof.
  rewrite mainDecode_afterEthernet. unfold afterEthernet.
  rewrite Htype, Hip, bind_attempt_ok.
  change (negb (2048 =? 2048)) with false. cbv iota.
  rewrite bind_continues by apply reportIPv4_continues.
  reflexivity.
Qed.

Lemma mainDecode_not_TCP :
  IPv4.protocol ip <> Int 6 ->
  mainDecode bytes
  = ended (lines (reportEthernet eth) ++ lines (reportIPv4 ip) ++ [notTCP])
          Closed.
Proof.
  intros H. rewrite mainDecode_afterIPv4. unfold afterIPv4.
  destruct (strictEq (IPv4.protocol ip) (Int 6)) eqn:E.
  - apply strictEq_6 in E. contradiction.
  - reflexivity.
Qed.

Lemma mainDecode_TCP_throws (e : exn) :
  IPv4.protocol ip = Int 6 ->
  parseTCPSegment (IPv4.data ip) = inl e ->
  mainDecode bytes
  = ended (lines (reportEthernet eth) ++ lines (reportIPv4 ip)) (Threw e).
Proof.
  intros H He. rewrite mainDecode_afterIPv4. unfold afterIPv4.
  rewrite H, He, bind_attempt_err.
  change (negb (strictEq (Int 6) (Int 6))) with false. cbn [fst snd].
  now rewrite app_nil_r.
Qed.

Lemma mainDecode_full (tcp : TCP.t) :
  IPv4.protocol ip = Int 6 ->
  parseTCPSegment (IPv4.data ip) = inr tcp ->
  mainDecode bytes
  = ended (lines (reportEthernet eth) ++ lines (reportIPv4 ip)
           ++ lines (reportTCP tcp)) Closed.
Proof.
  intros H Ht. rewrite mainDecode_afterIPv4. unfold afterIPv4.
  rewrite H, Ht, bind_attempt_ok.
  change (negb (strictEq (Int 6) (Int 6))) with false. cbv iota.
  rewrite bind_continues by apply reportTCP_continues.
  unfold close. cbn [fst snd].
  now rewrite app_nil_r.
Qed.

End WithIPv4.

End Dispatch.

(* ===================================================================== *)
(** ** Properties of the parsers                                         *)
(* ===================================================================== *)

(** C5.  Each parser throws its truncation error exactly when its buffer
    is below the minimum length (14 bytes for the Ethernet frame, 20 for
    the IPv4 packet and the TCP segment) and returns a record on every
    buffer that has the minimum length; on a frame below 14 bytes the
    main function reports the short frame and decodes no layer. *)
Theorem truncation_exactly_below_minimum (bytes : list number) :
  (parseEthernetFrame bytes = inl TruncatedFrame
   <-> (List.length bytes < 14)%nat)
  /\ ((14 <= List.length bytes)%nat ->
      exists eth, parseEthernetFrame bytes = inr eth)
  /\ ((List.length bytes < 14)%nat ->
      mainDecode bytes = ended [tooShort] Closed)
  /\ (parseIPv4Packet bytes = inl TruncatedPacket
      <-> (List.length bytes < 20)%nat)
  /\ ((20 <= List.length bytes)%nat ->
      exists ip, parseIPv4Packet bytes = inr ip)
  /\ (parseTCPSegment bytes = inl TruncatedSegment
      <-> (List.length bytes < 20)%nat)
  /\ ((20 <= List.length bytes)%nat ->
      exists tcp, parseTCPSegment bytes = inr tcp).
Proof.
  repeat split.
  - intros E.
    destruct (Nat.lt_ge_cases (List.length bytes) 14) as [H | H];
      [assumption |].
    destruct (parseEthernetFrame_long bytes H) as (eth & E' & _).
    congruence.
  - apply parseEthernetFrame_short.
  - intros H. destruct (parseEthernetFrame_long bytes H) as (eth & E & _).
    now exists eth.
  - apply mainDecode_short.
  - intros E.
    destruct (Nat.lt_ge_cases (List.length bytes) 20) as [H | H];
      [assumption |].
    destruct (parseIPv4Packet_long bytes H) as (ip & E' & _).
    congruence.
  - apply parseIPv4Packet_short.
  - intros H. destruct (parseIPv4Packet_long bytes H) as (ip & E & _).
    now exists ip.
  - intros E.
    destruct (Nat.lt_ge_cases (List.length bytes) 20) as [H | H];
      [assumption |].
    destruct (parseTCPSegment_long bytes H) as (tcp & E' & _).
    congruence.
  - apply parseTCPSegment_short.
  - intros H. destruct (parseTCPSegment_long bytes H) as (tcp & E & _).
    now exists tcp.
Qed.

Lemma truncation_exactly_below_minimum_witness :
  parseEthernetFrame thirteen = inl TruncatedFrame
  /\ mainDecode thirteen = ended [tooShort] Closed
  /\ parseIPv4Packet thirteen = inl TruncatedPacket
  /\ parseTCPSegment thirteen = inl TruncatedSegment.
Proof.
  destruct (truncation_exactly_below_minimum thirteen)
    as (He & _ & Hm & Hi & _ & Ht & _).
  assert (H14 : (List.length thirteen < 14)%nat) by (simpl; lia).
  assert (H20 : (List.length thirteen < 20)%nat) by (simpl; lia).
  exact (conj (proj2 He H14)
           (conj (Hm H14) (conj (proj2 Hi H20) (proj2 Ht H20)))).
Defined.

(** C4.  On a buffer of at least 20 bytes the IPv4 parser returns the
    version as the high nibble and the header length as the low nibble of
    byte 0, the DSCP as the high six and the ECN as the low two bits of
    byte 1, the flags as the top three and the fragment offset as the
    low thirteen bits of the 16-bit value of bytes 6-7, the TTL and the
    protocol as bytes 8 and 9, the checksum as the big-endian value of
    bytes 10-11, and as payload the bytes from offset [ihl * 4] on. *)
Theorem ipv4_field_layout (bytes : list number) :
  RawBuffer bytes -> (20 <= List.length bytes)%nat ->
  exists ip,
    parseIPv4Packet bytes = inr ip
    /\ IPv4.version ip = octet bytes 0 / 16
    /\ IPv4.ihl ip = octet bytes 0 mod 16
    /\ IPv4.dscp ip = octet bytes 1 / 4
    /\ IPv4.ecn ip = octet bytes 1 mod 4
    /\ IPv4.flags ip = be16 (octet bytes 6) (octet bytes 7) / 2 ^ 13
    /\ IPv4.fragmentOffset ip
       = be16 (octet bytes 6) (octet bytes 7) mod 2 ^ 13
    /\ IPv4.ttl ip = Int (octet bytes 8)
    /\ IPv4.protocol ip = Int (octet bytes 9)
    /\ IPv4.checksum ip = be16 (octet bytes 10) (octet bytes 11)
    /\ IPv4.data ip = skipn (Z.to_nat (IPv4.ihl ip * 4)) bytes.
Proof.
  intros Hb Hlen.
  destruct (RawBuffer_i32 bytes 0 Hb) as [E0 R0]; [lia |].
  destruct (RawBuffer_i32 bytes 1 Hb) as [E1 R1]; [lia |].
  destruct (RawBuffer_i32 bytes 6 Hb) as [E6 R6]; [lia |].
  destruct (RawBuffer_i32 bytes 7 Hb) as [E7 R7]; [lia |].
  destruct (RawBuffer_idx bytes 8 Hb) as [E8 _]; [lia |].
  destruct (RawBuffer_idx bytes 9 Hb) as [E9 _]; [lia |].
  unfold parseIPv4Packet. length_test.
  eexists. split; [reflexivity |]. cbn [IPv4.version IPv4.ihl IPv4.dscp
    IPv4.ecn IPv4.flags IPv4.fragmentOffset IPv4.ttl IPv4.protocol
    IPv4.checksum IPv4.data].
  rewrite E0, E1, E6, E7.
  repeat split.
  - now rewrite sar_div by lia.
  - now rewrite (band_mask _ 4) by lia.
  - now rewrite sar_div by lia.
  - now rewrite (band_mask _ 2) by lia.
  - rewrite sar_div by lia. unfold be16.
    change (2 ^ 5) with 32. change (2 ^ 13) with 8192.
    Z.to_euclidean_division_equations. lia.
  - rewrite (band_mask _ 5) by lia.
    assert (0 <= octet bytes 6 mod 2 ^ 5 < 2 ^ 5)
      by (apply Z.mod_pos_bound; lia).
    rewrite shl_mul by lia.
    rewrite (bor_disjoint _ _ 8) by lia.
    unfold be16.
    change (2 ^ 5) with 32. change (2 ^ 8) with 256.
    change (2 ^ 13) with 8192.
    Z.to_euclidean_division_equations. lia.
  - assumption.
  - assumption.
  - apply (pair16_be16 bytes 10); [assumption | simpl; lia].
  - rewrite slice_from; [reflexivity |].
    rewrite (band_mask _ 4) by lia.
    pose proof (Z.mod_pos_bound (octet bytes 0) (2 ^ 4)). lia.
Qed.

Lemma ipv4_field_layout_witness :
  RawBuffer ipHeader /\ (20 <= List.length ipHeader)%nat
  /\ exists ip, parseIPv4Packet ipHeader = inr ip
                /\ IPv4.version ip = 4 /\ IPv4.ihl ip = 5
                /\ IPv4.data ip = [].
Proof.
  assert (Hb : RawBuffer ipHeader) by reflexivity.
  assert (Hl : (20 <= List.length ipHeader)%nat) by (simpl; lia).
  split; [exact Hb |]. split; [exact Hl |].
  destruct (ipv4_field_layout ipHeader Hb Hl)
    as (ip & E & Hv & Hi & _ & _ & _ & _ & _ & _ & _ & Hd).
  exists ip. split; [exact E |].
  split; [rewrite Hv; reflexivity |].
  split; [rewrite Hi; reflexivity |].
  rewrite Hd, Hi. reflexivity.
Defined.




Lemma skipn_startsInsideHeader (bytes : list number) (offset : Z) :
  (20 <= List.length bytes)%nat -> 0 <= offset < 20 ->
  startsInsideHeader (skipn (Z.to_nat offset) bytes) bytes offset.
Proof.
  intros Hlen Ho. split; [assumption |]. split; [reflexivity |].
  intros i Hi. rewrite nth_error_skipn. split; [reflexivity |].
  apply nth_error_Some. lia.
Qed.

(** C9, as the code has it.  On every array of at least 20 elements
    both parsers return a record, whatever the values: the version is
    not compared with 4 and the header length is not compared with 5.
    When the header length of the IPv4 packet is below five words, and
    when the data offset of the TCP segment is from 0 to 4 (it is never
    negative on a buffer of 8-bit values), the payload starts inside the
    20-byte header.  Buffers with a version other than 4 and with header
    lengths below 5 exist and are accepted. *)
Theorem no_field_validation :
  (forall bytes : list number,
      (20 <= List.length bytes)%nat ->
      (exists ip,
          parseIPv4Packet bytes = inr ip
          /\ (IPv4.ihl ip < 5 ->
              startsInsideHeader (IPv4.data ip) bytes (IPv4.ihl ip * 4)))
      /\ (exists tcp,
             parseTCPSegment bytes = inr tcp
             /\ (RawBuffer bytes -> 0 <= TCP.dataOffset tcp)
             /\ (0 <= TCP.dataOffset tcp < 5 ->
                 startsInsideHeader (TCP.data tcp) bytes
                   (TCP.dataOffset tcp * 4))))
  /\ (exists bytes ip,
         RawBuffer bytes /\ parseIPv4Packet bytes = inr ip
         /\ IPv4.version ip <> 4 /\ IPv4.ihl ip < 5)
  /\ (exists bytes tcp,
         RawBuffer bytes /\ parseTCPSegment bytes = inr tcp
         /\ TCP.dataOffset tcp < 5).
Proof.
  split; [| split].
  - intros bytes Hlen. split.
    + destruct (parseIPv4Packet_long bytes Hlen) as (ip & E & Hi & _ & Hd).
      pose proof (ihl_range bytes) as R. rewrite <- Hi in R.
      exists ip. split; [exact E |]. intros Hlow.
      rewrite Hd. apply skipn_startsInsideHeader; [assumption | lia].
    + destruct (parseTCPSegment_long bytes Hlen)
        as (tcp & E & Ho & _ & _ & Hd).
      exists tcp. split; [exact E |]. split.
      * intros Hb.
        destruct (RawBuffer_i32 bytes 12 Hb) as [E12 R12]; [lia |].
        rewrite Ho, E12, sar_div by lia. apply Z.div_pos; lia.
      * intros Hlow.
        rewrite Hd, slice_from by lia.
        apply skipn_startsInsideHeader; [assumption | lia].
  - exists (map Int (96 :: repeat 0 19)). eexists.
    split; [reflexivity |]. split; [reflexivity |].
    split; [discriminate | reflexivity].
  - exists (map Int (repeat 0 20)). eexists.
    split; [reflexivity |]. split; [reflexivity |]. reflexivity.
Qed.

Lemma no_field_validation_witness :
  (20 <= List.length zeroHeader)%nat /\ RawBuffer zeroHeader
  /\ (exists ip, parseIPv4Packet zeroHeader = inr ip
                 /\ IPv4.data ip = zeroHeader)
  /\ (exists tcp, parseTCPSegment zeroHeader = inr tcp
                  /\ TCP.data tcp = zeroHeader).
Proof.
  assert (Hb : RawBuffer zeroHeader) by reflexivity.
  assert (Hl : (20 <= List.length zeroHeader)%nat) by (simpl; lia).
  split; [exact Hl |]. split; [exact Hb |].
  destruct (proj1 no_field_validation zeroHeader Hl)
    as [(ip & Ei & Hi) (tcp & Et & _ & Ht)].
  split.
  - exists ip. split; [exact Ei |].
    assert (Hv : IPv4.ihl ip = 0)
      by (vm_compute in Ei; injection Ei as <-; reflexivity).
    destruct (Hi ltac:(lia)) as (_ & Hd & _).
    rewrite Hd, Hv. reflexivity.
  - exists tcp. split; [exact Et |].
    assert (Hv : TCP.dataOffset tcp = 0)
      by (vm_compute in Et; injection Et as <-; reflexivity).
    destruct (Ht ltac:(lia)) as (_ & Hd & _).
    rewrite Hd, Hv. reflexivity.
Defined.

(** The claim C9 fails on an array the hex decoder returns: on the 30
    numbers of [negativeOffsetSegment] the data offset is -1, below 5,
    and the payload is the array from offset 26 on, which is the array
    from no offset inside the 20-byte header. *)
Lemma payload_outside_header :
  hexToBytes negativeOffsetLine = inr negativeOffsetSegment
  /\ (20 <= List.length negativeOffsetSegment)%nat
  /\ (exists tcp,
         parseTCPSegment negativeOffsetSegment = inr tcp
         /\ TCP.dataOffset tcp = -1
         /\ TCP.data tcp = skipn 26 negativeOffsetSegment
         /\ (forall off : nat,
                (off < 20)%nat ->
                TCP.data tcp <> skipn off negativeOffsetSegment)
         /\ ~ startsInsideHeader (TCP.data tcp) negativeOffsetSegment
                (TCP.dataOffset tcp * 4))
  /\ ~ (forall bytes tcp,
           (20 <= List.length bytes)%nat ->
           parseTCPSegment bytes = inr tcp ->
           TCP.dataOffset tcp < 5 ->
           exists off : nat,
             (off < 20)%nat /\ TCP.data tcp = skipn off bytes).
Proof.
  split; [vm_compute; reflexivity |].
  split; [simpl; lia |].
  destruct (parseTCPSegment negativeOffsetSegment) as [e | tcp] eqn:E;
    [vm_compute in E; discriminate |].
  assert (E' := E). vm_compute in E'. injection E' as <-.
  assert (Hout : forall off : nat,
             (off < 20)%nat ->
             map Int [7; 8; 9; 10] <> skipn off negativeOffsetSegment).
  { intros off Hoff Heq. apply (f_equal (@List.length number)) in Heq.
    assert (L : List.length negativeOffsetSegment = 30%nat) by reflexivity.
    rewrite length_skipn, L in Heq. cbn [map List.length] in Heq. lia. }
  split.
  - eexists. split; [reflexivity |].
    split; [reflexivity |]. split; [reflexivity |].
    split; [exact Hout |].
    intros (Hneg & _). vm_compute in Hneg. destruct Hneg as [Hneg _].
    now apply Hneg.
  - intros H.
    destruct (H negativeOffsetSegment _ ltac:(simpl; lia) E)
      as (off & Hoff & Heq); [vm_compute; reflexivity |].
    exact (Hout off Hoff Heq).
Qed.

(** C3.  On the header [highBitSegment] the parser returns the sequence
    number -2147483647 and the acknowledgment number -1, where the
    unsigned big-endian values of bytes 4-7 and 8-11 are 2147483649 and
    4294967295: the values returned are negative. *)
Theorem seqNum_negative_on_high_bit :
  RawBuffer highBitSegment
  /\ be32 (octet highBitSegment 4) (octet highBitSegment 5)
          (octet highBitSegment 6) (octet highBitSegment 7) = 2147483649
  /\ be32 (octet highBitSegment 8) (octet highBitSegment 9)
          (octet highBitSegment 10) (octet highBitSegment 11) = 4294967295
  /\ exists tcp,
       parseTCPSegment highBitSegment = inr tcp
       /\ TCP.seqNum tcp = -2147483647
       /\ TCP.ackNum tcp = -1
       /\ lines (reportTCP tcp)
          = [Log (LF ++ "=== TCP Segment ===");
             Log "Source Port:          1234";
             Log "Destination Port:     80";
             Log "Sequence Number:      -2147483647";
             Log "Acknowledgment Number:-1";
             Log "Data Offset:          5 bytes";
             Log "Flags:                URG=false, ACK=true, PSH=false, RST=false, SYN=true, FIN=false";
             Log "Window Size:          8192";
             Log "Checksum:             0x0000";
             Log "Urgent Pointer:       0";
             LogText []].
Proof.
  split; [reflexivity |]. split; [reflexivity |]. split; [reflexivity |].
  eexists. split; [reflexivity |].
  split; [reflexivity |]. split; reflexivity.
Qed.

(** What the parser returns in general: the big-endian value reduced to
    the signed 32-bit range, which is the unsigned value exactly when the
    first of the four bytes is below 128. *)
Lemma seqNum_ackNum_signed (bytes : list number) :
  RawBuffer bytes -> (20 <= List.length bytes)%nat ->
  exists tcp,
    parseTCPSegment bytes = inr tcp
    /\ TCP.seqNum tcp
       = wrap32 (be32 (octet bytes 4) (octet bytes 5)
                      (octet bytes 6) (octet bytes 7))
    /\ TCP.ackNum tcp
       = wrap32 (be32 (octet bytes 8) (octet bytes 9)
                      (octet bytes 10) (octet bytes 11)).
Proof.
  intros Hb Hlen.
  destruct (parseTCPSegment_long bytes Hlen) as (tcp & E & _ & Hs & Ha & _).
  exists tcp. split; [exact E |]. split.
  - rewrite Hs. apply (quad32_wrap bytes 4); [assumption | simpl; lia].
  - rewrite Ha. apply (quad32_wrap bytes 8); [assumption | simpl; lia].
Qed.

(* ===================================================================== *)
(** ** Properties of the pipeline                                        *)
(* ===================================================================== *)

Lemma reportEthernet_shows (eth : Eth.t) :
  lines (reportEthernet eth) = shownEthernet eth.
Proof. reflexivity. Qed.

Lemma reportIPv4_shows (ip : IPv4.t) : lines (reportIPv4 ip) = shownIPv4 ip.
Proof. reflexivity. Qed.

Lemma reportTCP_shows (tcp : TCP.t) : lines (reportTCP tcp) = shownTCP tcp.
Proof. reflexivity. Qed.

(** C6.  After the Ethernet frame is parsed, the main function writes
    its heading and fields.  It parses the payload as an IPv4 packet
    only when the type is 0x0800: on any other type the run ends there,
    with the frame shown, whatever the IPv4 parser would have done.  It
    writes the heading and fields of the packet, and parses its payload
    as a TCP segment only when moreover the protocol is 6: on any other
    protocol the run ends there, with the frame and the packet shown.
    An exception of a parser ends the run after the layers before it
    have been shown; when the three parsers return, the three layers
    are shown. *)
Theorem dispatch_on_tags (bytes : list number) (eth : Eth.t) :
  parseEthernetFrame bytes = inr eth ->
  (Eth.type eth <> 2048 ->
   mainDecode bytes = ended (shownEthernet eth ++ [notIPv4]) Closed)
  /\ (Eth.type eth = 2048 ->
      (forall e,
          parseIPv4Packet (Eth.data eth) = inl e ->
          mainDecode bytes = ended (shownEthernet eth) (Threw e))
      /\ (forall ip,
             parseIPv4Packet (Eth.data eth) = inr ip ->
             (IPv4.protocol ip <> Int 6 ->
              mainDecode bytes
              = ended (shownEthernet eth ++ shownIPv4 ip ++ [notTCP])
                      Closed)
             /\ (IPv4.protocol ip = Int 6 ->
                 (forall e,
                     parseTCPSegment (IPv4.data ip) = inl e ->
                     mainDecode bytes
                     = ended (shownEthernet eth ++ shownIPv4 ip) (Threw e))
                 /\ (forall tcp,
                        parseTCPSegment (IPv4.data ip) = inr tcp ->
                        mainDecode bytes
                        = ended (shownEthernet eth ++ shownIPv4 ip
                                 ++ shownTCP tcp) Closed)))).
Proof.
  intros Heth.
  rewrite <- reportEthernet_shows. split.
  - now apply mainDecode_not_IPv4.
  - intros Htype. split.
    + intros e He. now apply mainDecode_IPv4_throws.
    + intros ip Hip. rewrite <- reportIPv4_shows. split.
      * now apply mainDecode_not_TCP.
      * intros Hproto. split.
        -- intros e He. now apply mainDecode_TCP_throws.
        -- intros tcp Ht. rewrite <- reportTCP_shows.
           now apply mainDecode_full.
Qed.

(** Scenario A stops at the Ethernet frame, the frame with protocol 17
    stops at the IPv4 packet, and the 54-byte frame is decoded to the
    TCP segment. *)
Lemma dispatch_on_tags_witness :
  parseEthernetFrame scenarioA = inr scenarioA_frame
  /\ mainDecode scenarioA
     = ended
        ([Log (LF ++ "=== Ethernet Frame ===");
         Log "Destination MAC: FF:FF:FF:FF:FF:FF";
         Log "Source MAC:      AA:AA:AA:AA:AA:AA";
         Log "Type:            0x88b5";
         Log "Non-IPv4 Ethernet frame! Decoding not implemented."])
        Closed
  /\ mainDecode udpFrame
     = ended
        ([Log (LF ++ "=== Ethernet Frame ===");
         Log "Destination MAC: FF:FF:FF:FF:FF:FF";
         Log "Source MAC:      AA:AA:AA:AA:AA:AA";
         Log "Type:            0x0800";
         Log (LF ++ "=== IPv4 Packet ===");
         Log "Version:              4";
         Log "Header Length:        20 bytes";
         Log "DSCP:                 0";
         Log "ECN:                  0";
         Log "Total Length:         28 bytes";
         Log "Identification:       0x1234";
         Log "Flags:                0b010";
         Log "Fragment Offset:      0";
         Log "Time To Live (TTL):   64";
         Log "Protocol:             17";
         Log "Header Checksum:      0x0000";
         Log "Source IP:            192.168.0.1";
         Log "Destination IP:       192.168.0.2";
         Log (LF ++ "Non-TCP Protocol detected. Decoding not implemented for this protocol.")])
        Closed
  /\ mainDecode fullFrame
     = ended
        ([Log (LF ++ "=== Ethernet Frame ===");
         Log "Destination MAC: FF:FF:FF:FF:FF:FF";
         Log "Source MAC:      AA:AA:AA:AA:AA:AA";
         Log "Type:            0x0800";
         Log (LF ++ "=== IPv4 Packet ===");
         Log "Version:              4";
         Log "Header Length:        20 bytes";
         Log "DSCP:                 0";
         Log "ECN:                  0";
         Log "Total Length:         40 bytes";
         Log "Identification:       0x1234";
         Log "Flags:                0b010";
         Log "Fragment Offset:      0";
         Log "Time To Live (TTL):   64";
         Log "Protocol:             6";
         Log "Header Checksum:      0x0000";
         Log "Source IP:            192.168.0.1";
         Log "Destination IP:       192.168.0.2";
         Log (LF ++ "=== TCP Segment ===");
         Log "Source Port:          1234";
         Log "Destination Port:     80";
         Log "Sequence Number:      1";
         Log "Acknowledgment Number:0";
         Log "Data Offset:          5 bytes";
         Log "Flags:                URG=false, ACK=true, PSH=false, RST=false, SYN=true, FIN=false";
         Log "Window Size:          8192";
         Log "Checksum:             0x0000";
         Log "Urgent Pointer:       0";
         LogText []])
        Closed.
Proof.
  assert (E : parseEthernetFrame scenarioA = inr scenarioA_frame)
    by reflexivity.
  split; [exact E |].
  split.
  { refine (eq_trans (proj1 (dispatch_on_tags scenarioA scenarioA_frame E) _) _).
    - simpl. discriminate.
    - reflexivity. }
  split.
  - destruct (parseEthernetFrame udpFrame) as [e | eth] eqn:Ee;
      [vm_compute in Ee; discriminate |].
    assert (Ee' := Ee). vm_compute in Ee'. injection Ee' as <-.
    match goal with
    | _ : _ = inr ?r |- _ =>
        destruct (parseIPv4Packet (Eth.data r)) as [e | ip] eqn:Ei;
          [vm_compute in Ei; discriminate |]
    end.
    assert (Ei' := Ei). vm_compute in Ei'. injection Ei' as <-.
    refine (eq_trans
              (proj1 (proj2 (proj2 (dispatch_on_tags udpFrame _ Ee) eq_refl)
                        _ Ei) _) _).
    + discriminate.
    + vm_compute. reflexivity.
  - destruct (parseEthernetFrame fullFrame) as [e | eth] eqn:Ee;
      [vm_compute in Ee; discriminate |].
    assert (Ee' := Ee). vm_compute in Ee'. injection Ee' as <-.
    match goal with
    | _ : _ = inr ?r |- _ =>
        destruct (parseIPv4Packet (Eth.data r)) as [e | ip] eqn:Ei;
          [vm_compute in Ei; discriminate |]
    end.
    assert (Ei' := Ei). vm_compute in Ei'. injection Ei' as <-.
    match goal with
    | _ : parseIPv4Packet _ = inr ?r |- _ =>
        destruct (parseTCPSegment (IPv4.data r)) as [e | tcp] eqn:Et;
          [vm_compute in Et; discriminate |]
    end.
    assert (Et' := Et). vm_compute in Et'. injection Et' as <-.
    refine (eq_trans
              (proj2 (proj2 (proj2 (proj2 (dispatch_on_tags fullFrame _ Ee)
                                      eq_refl) _ Ei) eq_refl) _ Et) _).
    vm_compute. reflexivity.
Defined.



(* ===================================================================== *)
(** ** Strings of hexadecimal digits                                     *)
(* ===================================================================== *)

Section Cleaning.

Lemma lowerChar_white (c : ascii) :
  isWhiteSpace (lowerChar c) = isWhiteSpace c.
Proof.
  destruct c as [[|] [|] [|] [|] [|] [|] [|] [|]]; vm_compute; reflexivity.
Qed.

Lemma white_not_terminator (c : ascii) :
  isWhiteSpace c = false -> isLineTerminator c = false.
Proof.
  unfold isWhiteSpace, isLineTerminator, between.
  intros H. lia.
Qed.

Lemma cleanHex_noWhiteSpace (text : string) :
  noWhiteSpace (cleanHex text) = true.
Proof.
  unfold cleanHex, toLowerCase, noWhiteSpace.
  induction text as [| c r IH]; simpl; [reflexivity |].
  destruct (isWhiteSpace c) eqn:E; [exact IH |].
  simpl. rewrite lowerChar_white, E. exact IH.
Qed.

Lemma cleanHex_allWhiteSpace (text : string) :
  allWhiteSpace text = true -> cleanHex text = EmptyString.
Proof.
  unfold cleanHex, toLowerCase, allWhiteSpace.
  induction text as [| c r IH]; simpl; [reflexivity |].
  intros H. apply andb_true_iff in H. destruct H as [Hc Hr].
  rewrite Hc. now apply IH.
Qed.

(** Induction on a string two characters at a time. *)
Lemma string_pairs_ind (P : string -> Prop) :
  P EmptyString ->
  (forall c, P (String c EmptyString)) ->
  (forall c d r, P r -> P (String c (String d r))) ->
  forall s, P s.
Proof.
  intros H0 H1 H2 s.
  enough (H : P s /\ forall c, P (String c s)) by apply H.
  induction s as [| d r [IHr IHc]].
  - split; [exact H0 | exact H1].
  - split; [apply IHc |]. intros c. now apply H2.
Qed.

Lemma matchChunks_pair (c d : ascii) (r : string) :
  isLineTerminator c = false -> isLineTerminator d = false ->
  matchChunks (String c (String d r))
  = String c (String d EmptyString) :: matchChunks r.
Proof. intros Hc Hd. simpl. now rewrite Hc, Hd. Qed.

(** Without line terminators the matches are the successive pairs. *)
Lemma matchChunks_pairs (s : string) :
  noWhiteSpace s = true -> matchChunks s = pairs s.
Proof.
  unfold noWhiteSpace.
  induction s as [| c | c d r IH] using string_pairs_ind; intros H.
  - reflexivity.
  - simpl in H. rewrite andb_true_r in H. apply negb_true_iff in H.
    simpl. now rewrite (white_not_terminator c H).
  - simpl in H. apply andb_true_iff in H. destruct H as [Hc H].
    apply andb_true_iff in H. destruct H as [Hd Hr].
    apply negb_true_iff in Hc, Hd.
    rewrite matchChunks_pair by now apply white_not_terminator.
    simpl. now rewrite IH.
Qed.

Lemma length_pairs (s : string) :
  List.length (pairs s) = Nat.div2 (S (String.length s)).
Proof.
  induction s as [| c | c d r IH] using string_pairs_ind;
    [reflexivity | reflexivity |].
  simpl pairs. simpl String.length. simpl List.length.
  rewrite IH. reflexivity.
Qed.

Lemma hexToBytes_pairs (s : string) :
  noWhiteSpace s = true -> s <> EmptyString ->
  hexToBytes s = inr (map (fun b => parseInt b 16) (pairs s)).
Proof.
  intros Hs Hne. unfold hexToBytes, match_1_2.
  rewrite matchChunks_pairs by assumption.
  destruct s as [| c [| d r]]; [contradiction | reflexivity | reflexivity].
Qed.

Lemma hexToBytes_empty : hexToBytes EmptyString = inl TypeError.
Proof. reflexivity. Qed.

End Cleaning.

(** C10.  On the empty string the hex decoder throws a [TypeError]: it
    returns no array, empty or not, and throws no [Error] of the
    program.  A line made of white space is cleaned to the empty string,
    so the main function ends with that [TypeError] before it writes
    anything. *)
Theorem empty_input_TypeError :
  hexToBytes EmptyString = inl TypeError
  /\ (forall bytes, hexToBytes EmptyString <> inr bytes)
  /\ (forall msg, hexToBytes EmptyString <> inl (Error msg))
  /\ (forall text,
         allWhiteSpace text = true ->
         cleanHex text = EmptyString
         /\ hexToBytes (cleanHex text) = inl TypeError
         /\ main text = ended [] (Threw TypeError)).
Proof.
  split; [reflexivity |].
  split; [intros bytes; discriminate |].
  split; [intros msg; discriminate |].
  intros text H.
  pose proof (cleanHex_allWhiteSpace text H) as E.
  split; [exact E |].
  unfold main. rewrite E. split; reflexivity.
Qed.

Lemma empty_input_TypeError_witness :
  allWhiteSpace blankLine = true
  /\ main blankLine = ended [] (Threw TypeError).
Proof.
  assert (H : allWhiteSpace blankLine = true) by reflexivity.
  split; [exact H |].
  exact (proj2 (proj2 (proj2 (proj2 (proj2 empty_input_TypeError)) blankLine H))).
Defined.

Lemma parseInt_not_a_number (chunk : string) :
  startsWith (fun c => isHexDigit c || isSign c || isWhiteSpace c) chunk
  = false ->
  parseInt chunk 16 = NaN.
Proof.
  destruct chunk as [| c r]; [reflexivity |].
  unfold startsWith. intros H.
  apply orb_false_iff in H. destruct H as [H Hw].
  apply orb_false_iff in H. destruct H as [Hh Hs].
  unfold isSign in Hs. apply orb_false_iff in Hs. destruct Hs as [Hm Hp].
  unfold parseInt. simpl trimStart. rewrite Hw.
  unfold stripSign. rewrite Hm, Hp.
  change (negb (16 =? 0) && ((16 <? 2) || (36 <? 16))) with false.
  change ((16 =? 0) || (16 =? 16)) with true.
  change (if 16 =? 0 then 10 else 16) with 16.
  cbv iota.
  assert (Hd : leadingDigits 16 (String c r) = []).
  { unfold isHexDigit in Hh. simpl.
    destruct (digitValue c) as [v |]; [now rewrite Hh | reflexivity]. }
  destruct (true && hasHexPrefix (String c r)) eqn:Hx.
  - simpl in Hx. destruct r as [| d r']; [discriminate |].
    apply andb_true_iff in Hx. destruct Hx as [Hc _].
    apply Z.eqb_eq in Hc.
    unfold isHexDigit, digitValue, between in Hh.
    rewrite Hc in Hh. discriminate.
  - now rewrite Hd.
Qed.

(** C2, as the code has it.  The hex decoder checks nothing: on every
    line whose cleaned form is not empty it returns an array with one
    number for each pair of characters, and one for a last single
    character; a chunk that starts with neither a hexadecimal digit nor
    a sign is the number NaN.  The line "AB CD E" is decoded to the
    three numbers 0xAB, 0xCD and 0x0E, and the main function stops on
    the frame being too short. *)
Theorem hex_decoder_accepts_malformed :
  (forall text : string,
      cleanHex text <> EmptyString ->
      hexToBytes (cleanHex text)
      = inr (map (fun b => parseInt b 16) (pairs (cleanHex text)))
      /\ ~ fails (hexToBytes (cleanHex text))
      /\ List.length (pairs (cleanHex text))
         = Nat.div2 (S (String.length (cleanHex text)))
      /\ forall chunk,
           In chunk (pairs (cleanHex text)) ->
           startsWith (fun c => isHexDigit c || isSign c) chunk = false ->
           parseInt chunk 16 = NaN)
  /\ hexToBytes (cleanHex "AB CD E") = inr [Int 171; Int 205; Int 14]
  /\ main "AB CD E" = ended [tooShort] Closed.
Proof.
  split; [| split; reflexivity].
  intros text Hne.
  pose proof (cleanHex_noWhiteSpace text) as Hw.
  pose proof (hexToBytes_pairs _ Hw Hne) as E.
  split; [exact E |]. split.
  - rewrite E. intros [e He]. discriminate.
  - split; [apply length_pairs |].
    intros chunk Hin Hs. apply parseInt_not_a_number.
    destruct chunk as [| c r]; [reflexivity |].
    simpl in Hs |- *. rewrite Hs. simpl.
    clear Hs E Hne. revert Hin Hw. unfold noWhiteSpace.
    induction (cleanHex text) as [| x | x y s IH] using string_pairs_ind;
      intros Hin Hw.
    + destruct Hin.
    + simpl in Hin, Hw. destruct Hin as [Hin | []].
      injection Hin as -> _. rewrite andb_true_r in Hw.
      now apply negb_true_iff.
    + simpl in Hin, Hw.
      apply andb_true_iff in Hw. destruct Hw as [Hx Hw].
      apply andb_true_iff in Hw. destruct Hw as [_ Hw].
      destruct Hin as [Hin | Hin].
      * injection Hin as -> _. now apply negb_true_iff.
      * now apply IH.
Qed.

(** The line of Scenario C has an odd number of digits and is decoded to
    three numbers, the last from the single digit; the main function
    then finds the frame too short.  A line of non-hexadecimal characters
    is decoded too. *)
Lemma malformed_hex_is_decoded :
  cleanHex "AB CD E" = "abcde"
  /\ malformedHex (cleanHex "AB CD E") = true
  /\ hexToBytes (cleanHex "AB CD E") = inr [Int 171; Int 205; Int 14]
  /\ main "AB CD E" = ended [tooShort] Closed
  /\ malformedHex (cleanHex "zz") = true
  /\ hexToBytes (cleanHex "zz") = inr [NaN]
  /\ ~ rejectsMalformedHex.
Proof.
  repeat (split; [reflexivity |]).
  intros H. destruct (H "AB CD E" eq_refl) as [e He]. discriminate.
Qed.

Lemma hex_decoder_accepts_malformed_witness :
  cleanHex "AB CD E" <> EmptyString
  /\ hexToBytes (cleanHex "AB CD E") = inr [Int 171; Int 205; Int 14]
  /\ List.length (pairs (cleanHex "AB CD E")) = 3%nat.
Proof.
  assert (Hne : cleanHex "AB CD E" <> EmptyString) by discriminate.
  split; [exact Hne |].
  destruct (proj1 hex_decoder_accepts_malformed "AB CD E" Hne)
    as (E & _ & L & _).
  split; [| exact L].
  exact (eq_trans E eq_refl).
Defined.

(* ===================================================================== *)
(** ** Hardware addresses                                                *)
(* ===================================================================== *)

Lemma number_eqb_eq (x y : number) : number_eqb x y = true -> x = y.
Proof.
  destruct x, y; simpl; intros H; try discriminate; try reflexivity.
  apply Z.eqb_eq in H. now subst.
Qed.

Section AllOctets.

Lemma octets_complete (b : Z) : isOctet b -> In b octets.
Proof.
  intros H. unfold octets.
  rewrite <- (Z2Nat.id b) by apply H.
  apply in_map, in_seq. unfold isOctet in H. lia.
Qed.

(** A decidable property that holds of the 256 octets, by evaluation,
    holds of every octet. *)
Lemma for_all_octets (f : Z -> bool) :
  forallb f octets = true -> forall b, isOctet b -> f b = true.
Proof.
  intros H b Hb. rewrite forallb_forall in H.
  apply H, octets_complete, Hb.
Qed.

Variable upper : bool.

Lemma hexPair_no_terminator (b : Z) :
  isOctet b ->
  isLineTerminator (hexDigitOf upper (b / 16)) = false
  /\ isLineTerminator (hexDigitOf upper (b mod 16)) = false.
Proof.
  intros Hb.
  pose proof (for_all_octets
    (fun b => negb (isLineTerminator (hexDigitOf upper (b / 16)))
              && negb (isLineTerminator (hexDigitOf upper (b mod 16)))))
    as H.
  assert (H' := H ltac:(destruct upper; vm_compute; reflexivity) b Hb).
  apply andb_true_iff in H'. destruct H' as [H1 H2].
  now rewrite negb_true_iff in H1, H2.
Qed.

Lemma parseInt_hexPair (b : Z) :
  isOctet b -> parseInt (hexPair upper b) 16 = Int b.
Proof.
  intros Hb. apply number_eqb_eq.
  apply (for_all_octets
    (fun b => number_eqb (parseInt (hexPair upper b) 16) (Int b)));
    [destruct upper; vm_compute; reflexivity | exact Hb].
Qed.

Lemma format_octet (b : Z) :
  isOctet b ->
  toUpperCase (padStart (toStringRadix (Int b) 16) 2 "0") = hexPair true b.
Proof.
  intros Hb. apply String.eqb_eq.
  apply (for_all_octets
    (fun b => String.eqb
                (toUpperCase (padStart (toStringRadix (Int b) 16) 2 "0"))
                (hexPair true b)));
    [vm_compute; reflexivity | exact Hb].
Qed.

Lemma matchChunks_hexOfBytes (bs : list Z) :
  Forall isOctet bs ->
  matchChunks (hexOfBytes upper bs) = map (hexPair upper) bs.
Proof.
  unfold hexOfBytes.
  induction 1 as [| b bs Hb _ IH]; [reflexivity |].
  destruct (hexPair_no_terminator b Hb) as [H1 H2].
  assert (E : String.concat EmptyString (map (hexPair upper) (b :: bs))
              = String (hexDigitOf upper (b / 16))
                  (String (hexDigitOf upper (b mod 16))
                     (String.concat EmptyString (map (hexPair upper) bs)))).
  { destruct bs as [| b' bs']; reflexivity. }
  rewrite E, matchChunks_pair, IH by assumption.
  reflexivity.
Qed.

Lemma hexToBytes_hexOfBytes (bs : list Z) :
  Forall isOctet bs -> bs <> [] ->
  hexToBytes (hexOfBytes upper bs) = inr (map Int bs).
Proof.
  intros Hbs Hne. unfold hexToBytes, match_1_2.
  rewrite matchChunks_hexOfBytes by assumption.
  destruct bs as [| b bs']; [contradiction |].
  cbn [map]. f_equal.
  change (map (fun c => parseInt c 16) (map (hexPair upper) (b :: bs'))
          = map Int (b :: bs')).
  rewrite map_map. apply map_ext_in.
  intros x Hx. apply parseInt_hexPair.
  rewrite Forall_forall in Hbs. now apply Hbs.
Qed.

End AllOctets.

Lemma join_concat (sep : string) (xs : list string) :
  join sep xs = String.concat sep xs.
Proof.
  induction xs as [| x r IH]; [reflexivity |].
  destruct r as [| y r']; [reflexivity |].
  simpl in IH |- *. now rewrite IH.
Qed.

Lemma bytesToMAC_colonHex (bs : list Z) :
  Forall isOctet bs -> bytesToMAC (map Int bs) = colonHex bs.
Proof.
  intros Hbs. unfold bytesToMAC, colonHex.
  rewrite join_concat, map_map. f_equal.
  apply map_ext_in. intros x Hx. apply format_octet.
  rewrite Forall_forall in Hbs. now apply Hbs.
Qed.

(** C8.  The hexadecimal string of a 6-byte address, in upper or in
    lower case, is decoded by the hex decoder to the six bytes, and the
    address formatter renders them as the colon-separated upper-case
    hexadecimal form of the address. *)
Theorem address_round_trip (address : list Z) (upper : bool) :
  List.length address = 6%nat -> Forall isOctet address ->
  exists bytes,
    hexToBytes (hexOfBytes upper address) = inr bytes
    /\ bytes = map Int address
    /\ bytesToMAC bytes = colonHex address.
Proof.
  intros Hlen Hoct.
  exists (map Int address). split; [| split].
  - apply hexToBytes_hexOfBytes; [assumption |].
    intros ->. discriminate.
  - reflexivity.
  - now apply bytesToMAC_colonHex.
Qed.

Lemma address_round_trip_witness :
  List.length sampleAddress = 6%nat /\ Forall isOctet sampleAddress
  /\ hexOfBytes false sampleAddress = "001b44113ab7"
  /\ exists bytes,
       hexToBytes "001b44113ab7" = inr bytes
       /\ bytesToMAC bytes = "00:1B:44:11:3A:B7".
Proof.
  assert (Hl : List.length sampleAddress = 6%nat) by reflexivity.
  assert (Ho : Forall isOctet sampleAddress)
    by (repeat constructor; unfold isOctet; lia).
  split; [exact Hl |]. split; [exact Ho |]. split; [reflexivity |].
  destruct (address_round_trip sampleAddress false Hl Ho) as (bytes & E & _ & F).
  exists bytes. split; [exact E | exact F].
Defined.

(** Outside the buffers of 8-bit values: the hex decoder gives -15 for
    the chunk "-f"; with that number at index 12 the data offset is -1
    and the payload is the last four elements of the array. *)
Example negative_offset_outside_RawBuffer :
  parseInt "-f" 16 = Int (-15)
  /\ exists tcp,
       parseTCPSegment (map Int (repeat 1 12 ++ [-15; 2; 3; 4; 5; 6; 7; 8]))
       = inr tcp
       /\ TCP.dataOffset tcp = -1
       /\ TCP.data tcp = map Int [5; 6; 7; 8].
Proof.
  split; [reflexivity |].
  eexists. split; [reflexivity |]. split; reflexivity.
Qed.

(** Scenario B, from the line typed to the last line written: the line
    is decoded to the 54 bytes of [fullFrame] and the three layers are
    reported, with no TCP data. *)
Example scenarioB_run :
  hexToBytes (cleanHex scenarioB) = inr fullFrame
  /\ main scenarioB
     = ended
         [Log (LF ++ "=== Ethernet Frame ===");
          Log "Destination MAC: FF:FF:FF:FF:FF:FF";
          Log "Source MAC:      AA:AA:AA:AA:AA:AA";
          Log "Type:            0x0800";
          Log (LF ++ "=== IPv4 Packet ===");
          Log "Version:              4";
          Log "Header Length:        20 bytes";
          Log "DSCP:                 0";
          Log "ECN:                  0";
          Log "Total Length:         40 bytes";
          Log "Identification:       0x1234";
          Log "Flags:                0b010";
          Log "Fragment Offset:      0";
          Log "Time To Live (TTL):   64";
          Log "Protocol:             6";
          Log "Header Checksum:      0x0000";
          Log "Source IP:            192.168.0.1";
          Log "Destination IP:       192.168.0.2";
          Log (LF ++ "=== TCP Segment ===");
          Log "Source Port:          1234";
          Log "Destination Port:     80";
          Log "Sequence Number:      1";
          Log "Acknowledgment Number:0";
          Log "Data Offset:          5 bytes";
          Log "Flags:                URG=false, ACK=true, PSH=false, RST=false, SYN=true, FIN=false";
          Log "Window Size:          8192";
          Log "Checksum:             0x0000";
          Log "Urgent Pointer:       0";
          LogText []]
         Closed.
Proof. split; vm_compute; reflexivity. Qed.

(* ===================================================================== *)
(** ** Windows of a buffer                                               *)
(* ===================================================================== *)

Section Windows.

Lemma skipn_cons_nth {A : Type} (l : list A) (a : nat) (d : A) :
  (a < List.length l)%nat -> skipn a l = nth a l d :: skipn (S a) l.
Proof.
  revert a. induction l as [| x l IH]; intros [| a] H; simpl in *;
    try lia; [reflexivity |].
  apply IH. lia.
Qed.

Lemma slice_range {A : Type} (l : list A) (a b : Z) :
  0 <= a <= b -> b <= Z.of_nat (List.length l) ->
  slice l a (Some b) = firstn (Z.to_nat (b - a)) (skipn (Z.to_nat a) l).
Proof.
  intros Hab Hb. unfold slice, relIndex.
  replace (a <? 0) with false by (symmetry; apply Z.ltb_ge; lia).
  replace (b <? 0) with false by (symmetry; apply Z.ltb_ge; lia).
  rewrite !Z.min_l by lia.
  now rewrite Z.max_l by lia.
Qed.

Variable bytes : list number.
Hypothesis Hraw : RawBuffer bytes.

Lemma RawBuffer_window (a n : nat) :
  (a + n <= List.length bytes)%nat ->
  firstn n (skipn a bytes) = map Int (octetsAt bytes a n)
  /\ Forall isOctet (octetsAt bytes a n).
Proof.
  unfold octetsAt. revert a. induction n as [| n IH]; intros a H.
  - split; [reflexivity | constructor].
  - destruct (RawBuffer_idx bytes a Hraw) as [E R]; [lia |].
    destruct (IH (S a)) as [IH1 IH2]; [lia |].
    rewrite (skipn_cons_nth bytes a NaN) by lia.
    cbn [firstn seq map]. fold (idx bytes a). rewrite E, IH1.
    split; [reflexivity |]. constructor; assumption.
Qed.

Lemma RawBuffer_slice (a b : nat) :
  (a <= b)%nat -> (b <= List.length bytes)%nat ->
  slice bytes (Z.of_nat a) (Some (Z.of_nat b))
  = map Int (octetsAt bytes a (b - a))
  /\ Forall isOctet (octetsAt bytes a (b - a)).
Proof.
  intros Hab Hb. rewrite slice_range by lia.
  replace (Z.to_nat (Z.of_nat b - Z.of_nat a)) with (b - a)%nat by lia.
  rewrite Nat2Z.id. apply RawBuffer_window. lia.
Qed.

Lemma RawBuffer_skipn (k : nat) : RawBuffer (skipn k bytes).
Proof.
  unfold RawBuffer in *. rewrite forallb_forall in *.
  intros x Hx. apply Hraw.
  rewrite <- (firstn_skipn k bytes). apply in_or_app. now right.
Qed.

Lemma be16_range (i j : nat) :
  (i < List.length bytes)%nat -> (j < List.length bytes)%nat ->
  0 <= be16 (octet bytes i) (octet bytes j) < 65536.
Proof.
  intros Hi Hj.
  destruct (RawBuffer_idx bytes i Hraw Hi) as [_ Ri].
  destruct (RawBuffer_idx bytes j Hraw Hj) as [_ Rj].
  unfold be16. lia.
Qed.

End Windows.

Lemma toString_decimalOf (b : Z) :
  isOctet b -> toStringRadix (Int b) 10 = decimalOf b.
Proof.
  intros Hb. apply String.eqb_eq.
  apply (for_all_octets
    (fun b => String.eqb (toStringRadix (Int b) 10) (decimalOf b)));
    [vm_compute; reflexivity | exact Hb].
Qed.

Lemma bytesToIP_octets (bs : list Z) :
  Forall isOctet bs -> bytesToIP (map Int bs) = dotDecimal bs.
Proof.
  intros Hbs. unfold bytesToIP, dotDecimal.
  rewrite join_concat, map_map. f_equal.
  apply map_ext_in. intros x Hx. apply toString_decimalOf.
  rewrite Forall_forall in Hbs. now apply Hbs.
Qed.

(* ===================================================================== *)
(** ** Further properties of the helpers and the parsers                 *)
(* ===================================================================== *)

(** X1.  The address formatter for IPv4 renders a sequence of octets as
    their decimal forms, without leading zeroes, separated by dots. *)
Theorem bytesToIP_dotted_decimal (bs : list Z) :
  Forall isOctet bs -> bytesToIP (map Int bs) = dotDecimal bs.
Proof.
  intros Hbs. unfold bytesToIP, dotDecimal.
  rewrite join_concat, map_map. f_equal.
  apply map_ext_in. intros b Hb.
  rewrite Forall_forall in Hbs.
  now apply toString_decimalOf, Hbs.
Qed.

Lemma bytesToIP_dotted_decimal_witness :
  Forall isOctet [192; 168; 0; 1]
  /\ bytesToIP (map Int [192; 168; 0; 1]) = "192.168.0.1".
Proof.
  assert (H : Forall isOctet [192; 168; 0; 1])
    by (repeat constructor; unfold isOctet; lia).
  split; [exact H |].
  exact (eq_trans (bytesToIP_dotted_decimal [192; 168; 0; 1] H) eq_refl).
Defined.

(** X2.  On a buffer of at least 14 bytes the Ethernet parser returns
    the destination address as the colon-separated upper-case
    hexadecimal form of bytes 0-5, the source address as that of bytes
    6-11, the type as the unsigned big-endian value of bytes 12-13, which
    is below 65536, and as payload the bytes from offset 14 on. *)
Theorem ethernet_field_layout (bytes : list number) :
  RawBuffer bytes -> (14 <= List.length bytes)%nat ->
  exists eth,
    parseEthernetFrame bytes = inr eth
    /\ Eth.destMAC eth = colonHex (octetsAt bytes 0 6)
    /\ Eth.srcMAC eth = colonHex (octetsAt bytes 6 6)
    /\ Eth.type eth = be16 (octet bytes 12) (octet bytes 13)
    /\ 0 <= Eth.type eth < 65536
    /\ Eth.data eth = skipn 14 bytes.
Proof.
  intros Hb Hlen.
  destruct (RawBuffer_slice bytes Hb 0 6) as [E0 F0]; [lia | lia |].
  destruct (RawBuffer_slice bytes Hb 6 12) as [E6 F6]; [lia | lia |].
  assert (Et : pair16 bytes 12 = be16 (octet bytes 12) (octet bytes 13))
    by (apply (pair16_be16 bytes 12); [assumption | simpl; lia]).
  unfold parseEthernetFrame. length_test.
  eexists. split; [reflexivity |].
  cbn [Eth.destMAC Eth.srcMAC Eth.type Eth.data].
  change 0 with (Z.of_nat 0) at 1. change 6 with (Z.of_nat 6) at 1 2.
  change 12 with (Z.of_nat 12) at 1.
  rewrite E0, E6, Et.
  split; [now apply bytesToMAC_colonHex |].
  split; [now apply bytesToMAC_colonHex |].
  split; [reflexivity |].
  split; [apply be16_range; [assumption | lia | lia] |].
  now rewrite slice_from by lia.
Qed.

Lemma ethernet_field_layout_witness :
  RawBuffer fullFrame /\ (14 <= List.length fullFrame)%nat
  /\ exists eth,
       parseEthernetFrame fullFrame = inr eth
       /\ Eth.destMAC eth = "FF:FF:FF:FF:FF:FF"
       /\ Eth.srcMAC eth = "AA:AA:AA:AA:AA:AA"
       /\ Eth.type eth = 2048.
Proof.
  assert (Hb : RawBuffer fullFrame) by reflexivity.
  assert (Hl : (14 <= List.length fullFrame)%nat) by (simpl; lia).
  split; [exact Hb |]. split; [exact Hl |].
  destruct (ethernet_field_layout fullFrame Hb Hl)
    as (eth & E & Hd & Hs & Ht & _).
  exists eth. split; [exact E |].
  split; [exact (eq_trans Hd eq_refl) |].
  split; [exact (eq_trans Hs eq_refl) | exact (eq_trans Ht eq_refl)].
Defined.

(** X3.  On a buffer of at least 20 bytes the IPv4 parser returns the
    total length and the identification as the unsigned big-endian
    values of bytes 2-3 and 4-5, and the source and destination
    addresses as the dotted decimal forms of bytes 12-15 and 16-19. *)
Theorem ipv4_lengths_and_addresses (bytes : list number) :
  RawBuffer bytes -> (20 <= List.length bytes)%nat ->
  exists ip,
    parseIPv4Packet bytes = inr ip
    /\ IPv4.totalLength ip = be16 (octet bytes 2) (octet bytes 3)
    /\ IPv4.identification ip = be16 (octet bytes 4) (octet bytes 5)
    /\ IPv4.srcIP ip = dotDecimal (octetsAt bytes 12 4)
    /\ IPv4.dstIP ip = dotDecimal (octetsAt bytes 16 4).
Proof.
  intros Hb Hlen.
  destruct (RawBuffer_slice bytes Hb 12 16) as [Es Fs]; [lia | lia |].
  destruct (RawBuffer_slice bytes Hb 16 20) as [Ed Fd]; [lia | lia |].
  unfold parseIPv4Packet. length_test.
  eexists. split; [reflexivity |].
  cbn [IPv4.totalLength IPv4.identification IPv4.srcIP IPv4.dstIP].
  change 12 with (Z.of_nat 12) at 1. change 16 with (Z.of_nat 16) at 1 2.
  change 20 with (Z.of_nat 20) at 1.
  rewrite Es, Ed.
  split; [apply (pair16_be16 bytes 2); [assumption | simpl; lia] |].
  split; [apply (pair16_be16 bytes 4); [assumption | simpl; lia] |].
  split; now apply bytesToIP_octets.
Qed.

Lemma ipv4_lengths_and_addresses_witness :
  RawBuffer ipHeader /\ (20 <= List.length ipHeader)%nat
  /\ exists ip,
       parseIPv4Packet ipHeader = inr ip
       /\ IPv4.totalLength ip = 40
       /\ IPv4.identification ip = 4660
       /\ IPv4.srcIP ip = "192.168.0.1"
       /\ IPv4.dstIP ip = "192.168.0.2".
Proof.
  assert (Hb : RawBuffer ipHeader) by reflexivity.
  assert (Hl : (20 <= List.length ipHeader)%nat) by (simpl; lia).
  split; [exact Hb |]. split; [exact Hl |].
  destruct (ipv4_lengths_and_addresses ipHeader Hb Hl)
    as (ip & E & Ht & Hi & Hs & Hd).
  exists ip. split; [exact E |].
  split; [exact (eq_trans Ht eq_refl) |].
  split; [exact (eq_trans Hi eq_refl) |].
  split; [exact (eq_trans Hs eq_refl) | exact (eq_trans Hd eq_refl)].
Defined.

(** X4.  The bit fields the IPv4 parser cuts out of a byte lose nothing
    and fit their widths: version and header length are below 16 and
    recombine to byte 0, DSCP (below 64) and ECN (below 4) recombine to
    byte 1, flags (below 8) and fragment offset (below 8192) recombine to
    the 16-bit value of bytes 6-7. *)
Theorem ipv4_bit_fields_partition (bytes : list number) :
  RawBuffer bytes -> (20 <= List.length bytes)%nat ->
  exists ip,
    parseIPv4Packet bytes = inr ip
    /\ 0 <= IPv4.version ip < 16 /\ 0 <= IPv4.ihl ip < 16
    /\ IPv4.version ip * 16 + IPv4.ihl ip = octet bytes 0
    /\ 0 <= IPv4.dscp ip < 64 /\ 0 <= IPv4.ecn ip < 4
    /\ IPv4.dscp ip * 4 + IPv4.ecn ip = octet bytes 1
    /\ 0 <= IPv4.flags ip < 8 /\ 0 <= IPv4.fragmentOffset ip < 8192
    /\ IPv4.flags ip * 8192 + IPv4.fragmentOffset ip
       = be16 (octet bytes 6) (octet bytes 7).
Proof.
  intros Hb Hlen.
  destruct (RawBuffer_i32 bytes 0 Hb) as [E0 R0]; [lia |].
  destruct (RawBuffer_i32 bytes 1 Hb) as [E1 R1]; [lia |].
  destruct (RawBuffer_i32 bytes 6 Hb) as [E6 R6]; [lia |].
  destruct (RawBuffer_i32 bytes 7 Hb) as [E7 R7]; [lia |].
  unfold parseIPv4Packet. length_test.
  eexists. split; [reflexivity |].
  cbn [IPv4.version IPv4.ihl IPv4.dscp IPv4.ecn IPv4.flags
       IPv4.fragmentOffset].
  rewrite E0, E1, E6, E7.
  rewrite !sar_div by lia.
  rewrite (band_mask _ 4), (band_mask _ 2), (band_mask _ 5) by lia.
  assert (0 <= octet bytes 6 mod 2 ^ 5 < 2 ^ 5)
    by (apply Z.mod_pos_bound; lia).
  rewrite shl_mul by lia.
  rewrite (bor_disjoint _ _ 8) by lia.
  unfold be16.
  change (2 ^ 2) with 4. change (2 ^ 4) with 16. change (2 ^ 5) with 32.
  change (2 ^ 8) with 256.
  repeat split; Z.to_euclidean_division_equations; lia.
Qed.

Lemma ipv4_bit_fields_partition_witness :
  RawBuffer ipHeader /\ (20 <= List.length ipHeader)%nat
  /\ exists ip,
       parseIPv4Packet ipHeader = inr ip
       /\ IPv4.version ip * 16 + IPv4.ihl ip = 69
       /\ IPv4.flags ip * 8192 + IPv4.fragmentOffset ip = 16384.
Proof.
  assert (Hb : RawBuffer ipHeader) by reflexivity.
  assert (Hl : (20 <= List.length ipHeader)%nat) by (simpl; lia).
  split; [exact Hb |]. split; [exact Hl |].
  destruct (ipv4_bit_fields_partition ipHeader Hb Hl)
    as (ip & E & _ & _ & H0 & _ & _ & _ & _ & _ & H6).
  exists ip. split; [exact E |].
  split; [exact (eq_trans H0 eq_refl) | exact (eq_trans H6 eq_refl)].
Defined.

Lemma flag_bit (b mask k : Z) :
  isOctet b ->
  In (mask, k) [(32, 5); (16, 4); (8, 3); (4, 2); (2, 1); (1, 0)] ->
  negb (band (band b 63) mask =? 0) = Z.testbit b k.
Proof.
  intros Hb Hin. apply Bool.eqb_prop.
  simpl in Hin.
  repeat (destruct Hin as [Hin | Hin];
          [injection Hin as <- <-;
           apply (for_all_octets
                    (fun b => Bool.eqb (negb (band (band b 63) _ =? 0))
                                (Z.testbit b _)));
           [vm_compute; reflexivity | exact Hb] |]).
  destruct Hin.
Qed.

(** X5.  On a buffer of at least 20 bytes the TCP parser returns the
    ports, the window size, the checksum and the urgent pointer as the
    unsigned big-endian values of bytes 0-1, 2-3, 14-15, 16-17 and
    18-19, the data offset as the high nibble of byte 12, the flags URG,
    ACK, PSH, RST, SYN and FIN as the bits 5 to 0 of byte 13 (its two
    top bits are not looked at), and as payload the bytes from offset
    [dataOffset * 4] on. *)
Theorem tcp_field_layout (bytes : list number) :
  RawBuffer bytes -> (20 <= List.length bytes)%nat ->
  exists tcp,
    parseTCPSegment bytes = inr tcp
    /\ TCP.srcPort tcp = be16 (octet bytes 0) (octet bytes 1)
    /\ TCP.dstPort tcp = be16 (octet bytes 2) (octet bytes 3)
    /\ TCP.dataOffset tcp = octet bytes 12 / 16
    /\ 0 <= TCP.dataOffset tcp < 16
    /\ TCP.urg (TCP.flags tcp) = Z.testbit (octet bytes 13) 5
    /\ TCP.ack (TCP.flags tcp) = Z.testbit (octet bytes 13) 4
    /\ TCP.psh (TCP.flags tcp) = Z.testbit (octet bytes 13) 3
    /\ TCP.rst (TCP.flags tcp) = Z.testbit (octet bytes 13) 2
    /\ TCP.syn (TCP.flags tcp) = Z.testbit (octet bytes 13) 1
    /\ TCP.fin (TCP.flags tcp) = Z.testbit (octet bytes 13) 0
    /\ TCP.windowSize tcp = be16 (octet bytes 14) (octet bytes 15)
    /\ TCP.tcpChecksum tcp = be16 (octet bytes 16) (octet bytes 17)
    /\ TCP.urgentPointer tcp = be16 (octet bytes 18) (octet bytes 19)
    /\ TCP.data tcp = skipn (Z.to_nat (TCP.dataOffset tcp * 4)) bytes.
Proof.
  intros Hb Hlen.
  destruct (RawBuffer_i32 bytes 12 Hb) as [E12 R12]; [lia |].
  destruct (RawBuffer_i32 bytes 13 Hb) as [E13 R13]; [lia |].
  assert (P : forall i, (i + 1 < 20)%nat ->
                pair16 bytes i = be16 (octet bytes i) (octet bytes (i + 1)))
    by (intros i Hi; apply pair16_be16; [assumption | lia]).
  unfold parseTCPSegment. length_test.
  eexists. split; [reflexivity |].
  cbn [TCP.srcPort TCP.dstPort TCP.dataOffset TCP.flags TCP.urg TCP.ack
       TCP.psh TCP.rst TCP.syn TCP.fin TCP.windowSize TCP.tcpChecksum
       TCP.urgentPointer TCP.data].
  rewrite E12, E13, sar_div by lia. change (2 ^ 4) with 16.
  assert (R : 0 <= octet bytes 12 / 16 < 16)
    by (Z.to_euclidean_division_equations; lia).
  split; [apply (P 0%nat); lia |]. split; [apply (P 2%nat); lia |].
  split; [reflexivity |]. split; [exact R |].
  repeat (split; [apply flag_bit; [exact R13 | simpl; tauto] |]).
  split; [apply (P 14%nat); lia |]. split; [apply (P 16%nat); lia |].
  split; [apply (P 18%nat); lia |].
  now rewrite slice_from by lia.
Qed.

Lemma tcp_field_layout_witness :
  RawBuffer allFlagsSegment /\ (20 <= List.length allFlagsSegment)%nat
  /\ exists tcp,
       parseTCPSegment allFlagsSegment = inr tcp
       /\ TCP.srcPort tcp = 80 /\ TCP.dstPort tcp = 1234
       /\ TCP.dataOffset tcp = 6
       /\ TCP.urg (TCP.flags tcp) = true /\ TCP.fin (TCP.flags tcp) = true
       /\ TCP.windowSize tcp = 65535
       /\ TCP.data tcp = [].
Proof.
  assert (Hb : RawBuffer allFlagsSegment) by reflexivity.
  assert (Hl : (20 <= List.length allFlagsSegment)%nat) by (simpl; lia).
  split; [exact Hb |]. split; [exact Hl |].
  destruct (tcp_field_layout allFlagsSegment Hb Hl)
    as (tcp & E & Hs & Hd & Ho & _ & Hu & _ & _ & _ & _ & Hf & Hw & _ & _ & Hp).
  exists tcp. split; [exact E |].
  split; [exact (eq_trans Hs eq_refl) |].
  split; [exact (eq_trans Hd eq_refl) |].
  split; [exact (eq_trans Ho eq_refl) |].
  split; [exact (eq_trans Hu eq_refl) |].
  split; [exact (eq_trans Hf eq_refl) |].
  split; [exact (eq_trans Hw eq_refl) |].
  rewrite Hp, Ho. reflexivity.
Defined.

(** X6.  The sequence and acknowledgment numbers the TCP parser returns
    are the unsigned big-endian values of bytes 4-7 and 8-11 when the
    first of the four bytes is below 128, and that value less 2^32 when
    it is 128 or more. *)
Theorem tcp_numbers_signed (bytes : list number) :
  RawBuffer bytes -> (20 <= List.length bytes)%nat ->
  exists tcp,
    parseTCPSegment bytes = inr tcp
    /\ (let u := be32 (octet bytes 4) (octet bytes 5)
                      (octet bytes 6) (octet bytes 7) in
        TCP.seqNum tcp = if octet bytes 4 <? 128 then u else u - 2 ^ 32)
    /\ (let u := be32 (octet bytes 8) (octet bytes 9)
                      (octet bytes 10) (octet bytes 11) in
        TCP.ackNum tcp = if octet bytes 8 <? 128 then u else u - 2 ^ 32).
Proof.
  intros Hb Hlen.
  destruct (seqNum_ackNum_signed bytes Hb Hlen) as (tcp & E & Hs & Ha).
  assert (W : forall b0 b1 b2 b3,
             isOctet b0 -> isOctet b1 -> isOctet b2 -> isOctet b3 ->
             wrap32 (be32 b0 b1 b2 b3)
             = if b0 <? 128 then be32 b0 b1 b2 b3
               else be32 b0 b1 b2 b3 - 2 ^ 32).
  { unfold isOctet, be32. intros b0 b1 b2 b3 H0 H1 H2 H3.
    destruct (b0 <? 128) eqn:C.
    - apply Z.ltb_lt in C. apply wrap32_small. lia.
    - apply Z.ltb_ge in C. unfold wrap32.
      set (u := ((b0 * 256 + b1) * 256 + b2) * 256 + b3).
      replace (u + 2 ^ 31) with (u - 2 ^ 31 + 1 * 2 ^ 32) by lia.
      rewrite Z.mod_add by lia.
      rewrite Z.mod_small; subst u; lia. }
  assert (O : forall i, (i < 20)%nat -> isOctet (octet bytes i))
    by (intros i Hi; apply (RawBuffer_idx bytes i Hb); lia).
  exists tcp. split; [exact E |]. cbv zeta.
  rewrite Hs, Ha. split; apply W; apply O; lia.
Qed.

Lemma tcp_numbers_signed_witness :
  RawBuffer tcpHeader /\ (20 <= List.length tcpHeader)%nat
  /\ exists tcp,
       parseTCPSegment tcpHeader = inr tcp
       /\ TCP.seqNum tcp = 1 /\ TCP.ackNum tcp = 0.
Proof.
  assert (Hb : RawBuffer tcpHeader) by reflexivity.
  assert (Hl : (20 <= List.length tcpHeader)%nat) by (simpl; lia).
  split; [exact Hb |]. split; [exact Hl |].
  destruct (tcp_numbers_signed tcpHeader Hb Hl) as (tcp & E & Hs & Ha).
  exists tcp. split; [exact E |].
  split; [exact (eq_trans Hs eq_refl) | exact (eq_trans Ha eq_refl)].
Defined.

(* ===================================================================== *)
(** ** What the parsers return, read backwards                           *)
(* ===================================================================== *)

Section Inversion.

Variable bytes : list number.

Lemma parseEthernetFrame_inr (eth : Eth.t) :
  parseEthernetFrame bytes = inr eth ->
  (14 <= List.length bytes)%nat
  /\ Eth.type eth = pair16 bytes 12
  /\ Eth.data eth = skipn 14 bytes.
Proof.
  intros E.
  destruct (Nat.lt_ge_cases (List.length bytes) 14) as [H | H].
  - rewrite (parseEthernetFrame_short bytes H) in E. discriminate.
  - destruct (parseEthernetFrame_long bytes H) as (eth' & E' & P).
    rewrite E in E'. injection E' as <-. now split.
Qed.

Lemma parseIPv4Packet_inr (ip : IPv4.t) :
  parseIPv4Packet bytes = inr ip ->
  (20 <= List.length bytes)%nat
  /\ 0 <= IPv4.ihl ip <= 15
  /\ IPv4.protocol ip = idx bytes 9
  /\ IPv4.data ip = skipn (Z.to_nat (IPv4.ihl ip * 4)) bytes.
Proof.
  intros E.
  destruct (Nat.lt_ge_cases (List.length bytes) 20) as [H | H].
  - rewrite (parseIPv4Packet_short bytes H) in E. discriminate.
  - destruct (parseIPv4Packet_long bytes H) as (ip' & E' & Hi & Hp & Hd).
    rewrite E in E'. injection E' as <-.
    pose proof (ihl_range bytes) as R. rewrite <- Hi in R.
    now repeat split.
Qed.

Lemma parseIPv4Packet_inl (e : exn) :
  parseIPv4Packet bytes = inl e ->
  e = TruncatedPacket /\ (List.length bytes < 20)%nat.
Proof.
  intros E.
  destruct (Nat.lt_ge_cases (List.length bytes) 20) as [H | H].
  - rewrite (parseIPv4Packet_short bytes H) in E.
    injection E as <-. now split.
  - destruct (parseIPv4Packet_long bytes H) as (ip & E' & _). congruence.
Qed.

Lemma parseTCPSegment_inr (tcp : TCP.t) :
  parseTCPSegment bytes = inr tcp ->
  (20 <= List.length bytes)%nat
  /\ TCP.dataOffset tcp = sar (i32 bytes 12) 4
  /\ TCP.data tcp = slice bytes (TCP.dataOffset tcp * 4) None.
Proof.
  intros E.
  destruct (Nat.lt_ge_cases (List.length bytes) 20) as [H | H].
  - rewrite (parseTCPSegment_short bytes H) in E. discriminate.
  - destruct (parseTCPSegment_long bytes H) as (tcp' & E' & Ho & _ & _ & Hd).
    rewrite E in E'. injection E' as <-. now repeat split.
Qed.

Lemma parseTCPSegment_inl (e : exn) :
  parseTCPSegment bytes = inl e ->
  e = TruncatedSegment /\ (List.length bytes < 20)%nat.
Proof.
  intros E.
  destruct (Nat.lt_ge_cases (List.length bytes) 20) as [H | H].
  - rewrite (parseTCPSegment_short bytes H) in E.
    injection E as <-. now split.
  - destruct (parseTCPSegment_long bytes H) as (tcp & E' & _). congruence.
Qed.

End Inversion.

Lemma Buffer_from_RawBuffer (bytes : list number) :
  RawBuffer bytes -> map Int (Buffer_from bytes) = bytes.
Proof.
  unfold RawBuffer, Buffer_from.
  induction bytes as [| x r IH]; simpl; [reflexivity |].
  intros H. apply andb_true_iff in H. destruct H as [Hx Hr].
  destruct (isByte_range x Hx) as (z & -> & Rz).
  rewrite IH by assumption. f_equal. f_equal.
  unfold ToUint8. simpl. rewrite wrap32_small by lia.
  apply Z.mod_small. lia.
Qed.

(** X7.  The payloads are suffixes of the frame: when the three parsers
    return on a buffer and on each other's payload, the IPv4 packet is
    the frame from offset 14, the TCP segment is the frame from offset
    [14 + ihl * 4], and the TCP data are the frame from offset
    [14 + ihl * 4 + dataOffset * 4]; the octets the main function turns
    into text are those data, unchanged. *)
Theorem payloads_are_suffixes
    (bytes : list number) (eth : Eth.t) (ip : IPv4.t) (tcp : TCP.t) :
  RawBuffer bytes ->
  parseEthernetFrame bytes = inr eth ->
  parseIPv4Packet (Eth.data eth) = inr ip ->
  parseTCPSegment (IPv4.data ip) = inr tcp ->
  Eth.data eth = skipn 14 bytes
  /\ IPv4.data ip = skipn (Z.to_nat (14 + IPv4.ihl ip * 4)) bytes
  /\ TCP.data tcp
     = skipn (Z.to_nat (14 + IPv4.ihl ip * 4 + TCP.dataOffset tcp * 4)) bytes
  /\ map Int (Buffer_from (TCP.data tcp)) = TCP.data tcp.
Proof.
  intros Hb Ee Ei Et.
  destruct (parseEthernetFrame_inr _ _ Ee) as (_ & _ & He).
  destruct (parseIPv4Packet_inr _ _ Ei) as (_ & Ri & _ & Hi).
  destruct (parseTCPSegment_inr _ _ Et) as (Lt & Ho & Ht).
  assert (Hi' : IPv4.data ip = skipn (Z.to_nat (14 + IPv4.ihl ip * 4)) bytes).
  { rewrite Hi, He, skipn_skipn. f_equal. lia. }
  assert (Hraw : RawBuffer (IPv4.data ip))
    by (rewrite Hi'; now apply RawBuffer_skipn).
  destruct (RawBuffer_i32 (IPv4.data ip) 12 Hraw) as [E12 R12]; [lia |].
  assert (Ro : 0 <= TCP.dataOffset tcp).
  { rewrite Ho, E12, sar_div by lia. apply Z.div_pos; lia. }
  assert (Ht' : TCP.data tcp
                = skipn (Z.to_nat (14 + IPv4.ihl ip * 4
                                   + TCP.dataOffset tcp * 4)) bytes).
  { rewrite Ht, slice_from by lia. rewrite Hi', skipn_skipn. f_equal. lia. }
  split; [exact He |]. split; [exact Hi' |]. split; [exact Ht' |].
  apply Buffer_from_RawBuffer. rewrite Ht'. now apply RawBuffer_skipn.
Qed.

Lemma payloads_are_suffixes_witness :
  RawBuffer dataFrame
  /\ exists eth ip tcp,
       parseEthernetFrame dataFrame = inr eth
       /\ parseIPv4Packet (Eth.data eth) = inr ip
       /\ parseTCPSegment (IPv4.data ip) = inr tcp
       /\ TCP.data tcp = skipn 54 dataFrame
       /\ Buffer_from (TCP.data tcp) = [104; 105].
Proof.
  assert (Hb : RawBuffer dataFrame) by reflexivity.
  split; [exact Hb |].
  destruct (parseEthernetFrame dataFrame) as [e | eth] eqn:Ee;
    [vm_compute in Ee; discriminate |].
  assert (Ee' := Ee). vm_compute in Ee'. injection Ee' as <-.
  match goal with
  | _ : _ = inr ?r |- _ =>
      destruct (parseIPv4Packet (Eth.data r)) as [e | ip] eqn:Ei;
        [vm_compute in Ei; discriminate |]
  end.
  assert (Ei' := Ei). vm_compute in Ei'. injection Ei' as <-.
  match goal with
  | _ : parseIPv4Packet _ = inr ?r |- _ =>
      destruct (parseTCPSegment (IPv4.data r)) as [e | tcp] eqn:Et;
        [vm_compute in Et; discriminate |]
  end.
  assert (Et' := Et). vm_compute in Et'. injection Et' as <-.
  destruct (payloads_are_suffixes dataFrame _ _ _ Hb Ee Ei Et)
    as (_ & _ & Ht & _).
  do 3 eexists.
  split; [exact Ee |]. split; [exact Ei |]. split; [exact Et |].
  split; [exact Ht | reflexivity].
Defined.

(* ===================================================================== *)
(** ** How a run of the main function ends                               *)
(* ===================================================================== *)

Lemma hexToBytes_inl (s : string) (e : exn) :
  hexToBytes s = inl e -> e = TypeError.
Proof.
  unfold hexToBytes. destruct (match_1_2 s); intros H;
    [discriminate | now injection H as <-].
Qed.

Lemma mainDecode_completions (bytes : list number) :
  exists out c,
    mainDecode bytes = ended out c
    /\ (c = Closed \/ c = Threw TruncatedPacket
        \/ c = Threw TruncatedSegment).
Proof.
  destruct (Nat.lt_ge_cases (List.length bytes) 14) as [H | H].
  { do 2 eexists. split; [now apply mainDecode_short | now left]. }
  destruct (parseEthernetFrame_long bytes H) as (eth & Ee & _).
  destruct (Z.eq_dec (Eth.type eth) 2048) as [Ht | Ht].
  2: { do 2 eexists.
       split; [exact (mainDecode_not_IPv4 bytes eth Ee Ht) | now left]. }
  destruct (parseIPv4Packet (Eth.data eth)) as [e | ip] eqn:Ei.
  { destruct (parseIPv4Packet_inl _ _ Ei) as [-> _].
    do 2 eexists.
    split; [exact (mainDecode_IPv4_throws bytes eth Ee _ Ht Ei) | tauto]. }
  destruct (strictEq (IPv4.protocol ip) (Int 6)) eqn:Hp.
  2: { do 2 eexists.
       split; [apply (mainDecode_not_TCP bytes eth Ee ip Ht Ei) | now left].
       intros C. apply strictEq_6 in C. congruence. }
  apply strictEq_6 in Hp.
  destruct (parseTCPSegment (IPv4.data ip)) as [e | tcp] eqn:Et.
  - destruct (parseTCPSegment_inl _ _ Et) as [-> _].
    do 2 eexists.
    split; [exact (mainDecode_TCP_throws bytes eth Ee ip Ht Ei _ Hp Et) | tauto].
  - do 2 eexists.
    split; [exact (mainDecode_full bytes eth Ee ip Ht Ei tcp Hp Et) | now left].
Qed.

(** Once a line is read, the run ends by closing the terminal or with
    one of three exceptions. *)
Lemma main_ends (answer : string) :
  exists out c,
    main answer = ended out c
    /\ (c = Closed \/ uncaught c)
    /\ c <> Threw TruncatedFrame
    /\ (c = Threw TypeError <-> cleanHex answer = EmptyString)
    /\ (c = Threw TypeError -> out = []).
Proof.
  unfold main.
  destruct (string_dec (cleanHex answer) EmptyString) as [E | E].
  - rewrite E. exists [], (Threw TypeError).
    split; [reflexivity |]. unfold uncaught.
    split; [tauto |]. split; [discriminate |]. split; tauto.
  - rewrite (hexToBytes_pairs _ (cleanHex_noWhiteSpace answer) E).
    rewrite bind_attempt_ok.
    destruct (mainDecode_completions
                (map (fun b => parseInt b 16) (pairs (cleanHex answer))))
      as (out & c & Hm & Hc).
    exists out, c. split; [exact Hm |]. unfold uncaught.
    split; [tauto |].
    split; [destruct Hc as [-> | [-> | ->]]; discriminate |].
    split; [split; [| contradiction] |];
      intros ->; destruct Hc as [Hc | [Hc | Hc]]; discriminate.
Qed.

(** X8.  A run of the main function first writes its question.  When
    the input ends before a line is read, nothing more happens: no line
    is written, the terminal is not closed and no exception is thrown.
    When a line is read, the run ends either by closing the terminal or
    with one of three uncaught exceptions: the [TypeError] of the hex
    decoder, the truncation error of the IPv4 parser or that of the TCP
    parser.  The truncation error of the Ethernet parser is never
    thrown, since the main function tests the length first.  The
    [TypeError] is thrown exactly when the line has no character other
    than white space, and then nothing has been written after the
    question. *)
Theorem main_completions (stdin : option string) :
  exists shown e,
    mainRun stdin = (Question "Enter Ethernet frame in hex: " :: shown, e)
    /\ (stdin = None -> shown = [] /\ e = None)
    /\ (forall answer,
           stdin = Some answer ->
           exists c,
             e = Some c
             /\ (c = Closed \/ uncaught c)
             /\ c <> Threw TruncatedFrame
             /\ (c = Threw TypeError <-> cleanHex answer = EmptyString)
             /\ (c = Threw TypeError -> shown = [])).
Proof.
  destruct stdin as [answer |].
  - destruct (main_ends answer) as (out & c & Hm & Hc & Hf & Ht & Ho).
    exists (map Written out), (Some c).
    split; [unfold mainRun; rewrite Hm; reflexivity |].
    split; [discriminate |].
    intros a Ha. injection Ha as <-.
    exists c. split; [reflexivity |].
    split; [exact Hc |]. split; [exact Hf |]. split; [exact Ht |].
    intros H. now rewrite (Ho H).
  - exists [], None. split; [reflexivity |].
    split; [now split | discriminate].
Qed.

Lemma main_completions_witness :
  mainRun None = ([Question "Enter Ethernet frame in hex: "], None)
  /\ mainRun (Some blankLine)
     = ([Question "Enter Ethernet frame in hex: "], Some (Threw TypeError)).
Proof.
  split.
  - destruct (main_completions None) as (shown & e & Hm & H0 & _).
    destruct (H0 eq_refl) as [Hs He].
    rewrite Hs, He in Hm. exact Hm.
  - destruct (main_completions (Some blankLine))
      as (shown & e & Hm & _ & H1).
    destruct (H1 blankLine eq_refl) as (c & He & _ & _ & Ht & Ho).
    assert (Hc : c = Threw TypeError) by (apply Ht; reflexivity).
    rewrite He, Hc, (Ho Hc) in Hm. exact Hm.
Defined.

(** X9.  A frame of type 0x0800 with 14 to 33 bytes has no room for
    an IPv4 header: the main function writes the report of the Ethernet
    frame and ends with the uncaught truncation error of the IPv4
    parser. *)
Theorem main_throws_on_short_packet (bytes : list number) :
  (14 <= List.length bytes < 34)%nat ->
  exists eth,
    parseEthernetFrame bytes = inr eth
    /\ (Eth.type eth = 2048 ->
        mainDecode bytes
        = ended (lines (reportEthernet eth)) (Threw TruncatedPacket)).
Proof.
  intros H.
  destruct (parseEthernetFrame_long bytes) as (eth & Ee & _ & Hd); [lia |].
  exists eth. split; [exact Ee |]. intros Ht.
  apply (mainDecode_IPv4_throws bytes eth Ee _ Ht).
  apply parseIPv4Packet_short. rewrite Hd, length_skipn. lia.
Qed.

Lemma main_throws_on_short_packet_witness :
  (14 <= List.length bareIPv4Frame < 34)%nat
  /\ mainDecode bareIPv4Frame
     = ended [Log (LF ++ "=== Ethernet Frame ===");
              Log "Destination MAC: FF:FF:FF:FF:FF:FF";
              Log "Source MAC:      AA:AA:AA:AA:AA:AA";
              Log "Type:            0x0800"]
             (Threw TruncatedPacket).
Proof.
  assert (Hl : (14 <= List.length bareIPv4Frame < 34)%nat) by (simpl; lia).
  split; [exact Hl |].
  destruct (main_throws_on_short_packet bareIPv4Frame Hl) as (eth & Ee & Hm).
  vm_compute in Ee. injection Ee as <-.
  exact (eq_trans (Hm eq_refl) eq_refl).
Defined.

(** X10.  On a frame of at least 34 bytes of type 0x0800 and protocol 6
    that has fewer than 20 bytes after the IPv4 header, the main
    function writes the reports of the frame and of the packet and ends
    with the uncaught truncation error of the TCP parser. *)
Theorem main_throws_on_short_segment (bytes : list number) :
  (34 <= List.length bytes)%nat ->
  exists eth ip,
    parseEthernetFrame bytes = inr eth
    /\ parseIPv4Packet (Eth.data eth) = inr ip
    /\ (Eth.type eth = 2048 -> IPv4.protocol ip = Int 6 ->
        Z.of_nat (List.length bytes) - 14 - IPv4.ihl ip * 4 < 20 ->
        mainDecode bytes
        = ended (lines (reportEthernet eth) ++ lines (reportIPv4 ip))
                (Threw TruncatedSegment)).
Proof.
  intros H.
  destruct (parseEthernetFrame_long bytes) as (eth & Ee & _ & Hd); [lia |].
  assert (Hle : List.length (Eth.data eth) = (List.length bytes - 14)%nat)
    by (rewrite Hd; apply length_skipn).
  destruct (parseIPv4Packet_long (Eth.data eth)) as (ip & Ei & Hi & _ & Hdi);
    [lia |].
  pose proof (ihl_range (Eth.data eth)) as R. rewrite <- Hi in R.
  exists eth, ip. split; [exact Ee |]. split; [exact Ei |].
  intros Ht Hp Hshort.
  apply (mainDecode_TCP_throws bytes eth Ee ip Ht Ei _ Hp).
  apply parseTCPSegment_short. rewrite Hdi, length_skipn, Hle. lia.
Qed.

Lemma main_throws_on_short_segment_witness :
  (34 <= List.length optionsFrame)%nat
  /\ exists out,
       mainDecode optionsFrame = ended out (Threw TruncatedSegment)
       /\ List.length out = 18%nat.
Proof.
  assert (Hl : (34 <= List.length optionsFrame)%nat) by (simpl; lia).
  split; [exact Hl |].
  destruct (main_throws_on_short_segment optionsFrame Hl)
    as (eth & ip & Ee & Ei & Hm).
  vm_compute in Ee. injection Ee as <-.
  vm_compute in Ei. injection Ei as <-.
  eexists. split; [apply Hm; [reflexivity | reflexivity | simpl; lia] |].
  reflexivity.
Defined.

(* ===================================================================== *)
(** ** Further properties of the hex decoder                             *)
(* ===================================================================== *)

Section Chunks.

(** Induction along the matches of the regular expression. *)
Lemma matchChunks_induction (P : string -> Prop) :
  P EmptyString ->
  (forall c r, isLineTerminator c = true -> P r -> P (String c r)) ->
  (forall c, isLineTerminator c = false -> P (String c EmptyString)) ->
  (forall c d r, isLineTerminator c = false -> P r ->
                 P (String c (String d r))) ->
  forall s, P s.
Proof.
  intros H0 Ht H1 H2 s.
  assert (Hone : forall c r, P r -> (forall d, P (String d r)) ->
                             P (String c r)
                             /\ forall c', P (String c' (String c r))).
  { intros c r Pr Pdr. split; [apply Pdr |].
    intros c'. destruct (isLineTerminator c') eqn:E.
    - apply Ht; [assumption | apply Pdr].
    - now apply H2. }
  enough (H : P s /\ forall c, P (String c s)) by apply H.
  induction s as [| d r [IHr IHc]].
  - split; [exact H0 |]. intros c.
    destruct (isLineTerminator c) eqn:E; [now apply Ht | now apply H1].
  - now apply Hone.
Qed.

Lemma matchChunks_terminator (c : ascii) (r : string) :
  isLineTerminator c = true -> matchChunks (String c r) = matchChunks r.
Proof. intros H. cbn [matchChunks]. now rewrite H. Qed.

Lemma matchChunks_single (c : ascii) :
  isLineTerminator c = false ->
  matchChunks (String c EmptyString) = [String c EmptyString].
Proof. intros H. cbn [matchChunks]. now rewrite H. Qed.

Lemma matchChunks_two (c d : ascii) (r : string) :
  isLineTerminator c = false ->
  matchChunks (String c (String d r))
  = (if isLineTerminator d then String c EmptyString
     else String c (String d EmptyString)) :: matchChunks r.
Proof.
  intros H. cbn [matchChunks]. rewrite H.
  now destruct (isLineTerminator d).
Qed.

Lemma matchChunks_nil (s : string) :
  matchChunks s = [] <-> allChars isLineTerminator s = true.
Proof.
  induction s as [| c r Hc IH | c Hc | c d r Hc IH]
    using matchChunks_induction.
  - split; reflexivity.
  - rewrite matchChunks_terminator by assumption.
    cbn [allChars]. now rewrite Hc.
  - rewrite matchChunks_single by assumption.
    cbn [allChars]. rewrite Hc. split; discriminate.
  - rewrite matchChunks_two by assumption.
    cbn [allChars]. rewrite Hc. split; discriminate.
Qed.

Lemma matchChunks_lengths (s : string) :
  Forall (fun chunk => (1 <= String.length chunk <= 2)%nat) (matchChunks s)
  /\ (List.length (matchChunks s) <= String.length s)%nat.
Proof.
  induction s as [| c r Hc [IH1 IH2] | c Hc | c d r Hc [IH1 IH2]]
    using matchChunks_induction.
  - split; [constructor | simpl; lia].
  - rewrite matchChunks_terminator by assumption.
    split; [assumption | simpl; lia].
  - rewrite matchChunks_single by assumption.
    split; [repeat constructor | simpl; lia].
  - rewrite matchChunks_two by assumption.
    split; [| simpl in *; lia].
    constructor; [| assumption].
    destruct (isLineTerminator d); simpl; lia.
Qed.

End Chunks.

Section ParseInt16.

(** [parseInt] at radix 16, with the tests on the radix evaluated. *)
Lemma parseInt_16 (s : string) :
  parseInt s 16
  = let '(sign, s1) := stripSign (trimStart s) in
    let s2 := if hasHexPrefix s1 then dropHexPrefix s1 else s1 in
    match leadingDigits 16 s2 with
    | [] => NaN
    | ds =>
        let mathInt := fold_left (fun acc d => acc * 16 + d) ds 0 in
        if mathInt =? 0
        then (if sign =? -1 then NegZero else Int 0)
        else Int (sign * mathInt)
    end.
Proof.
  unfold parseInt. destruct (stripSign (trimStart s)) as [sign s1].
  change (negb (16 =? 0) && ((16 <? 2) || (36 <? 16))) with false.
  change ((16 =? 0) || (16 =? 16)) with true.
  change (if 16 =? 0 then 10 else 16) with 16.
  cbv iota. cbn [andb].
  now destruct (hasHexPrefix s1).
Qed.

Lemma lowerChar_facts (c : ascii) :
  isLineTerminator (lowerChar c) = isLineTerminator c
  /\ digitValue (lowerChar c) = digitValue c
  /\ (code (lowerChar c) =? 45) = (code c =? 45)
  /\ (code (lowerChar c) =? 43) = (code c =? 43)
  /\ (code (lowerChar c) =? 48) = (code c =? 48)
  /\ (code (lowerChar c) =? 120) || (code (lowerChar c) =? 88)
     = (code c =? 120) || (code c =? 88)
  /\ lowerChar (lowerChar c) = lowerChar c.
Proof.
  destruct c as [[|] [|] [|] [|] [|] [|] [|] [|]];
    vm_compute; repeat split.
Qed.

Lemma trimStart_lower (s : string) :
  trimStart (toLowerCase s) = toLowerCase (trimStart s).
Proof.
  unfold toLowerCase. induction s as [| c r IH]; [reflexivity |].
  cbn [mapString trimStart]. rewrite lowerChar_white.
  now destruct (isWhiteSpace c).
Qed.

Lemma stripSign_lower (s : string) :
  stripSign (toLowerCase s)
  = (fst (stripSign s), toLowerCase (snd (stripSign s))).
Proof.
  unfold toLowerCase. destruct s as [| c r]; [reflexivity |].
  cbn [mapString stripSign].
  destruct (lowerChar_facts c) as (_ & _ & -> & -> & _).
  destruct (code c =? 45); [reflexivity |].
  now destruct (code c =? 43).
Qed.

Lemma hasHexPrefix_lower (s : string) :
  hasHexPrefix (toLowerCase s) = hasHexPrefix s.
Proof.
  unfold toLowerCase. destruct s as [| c [| d r]]; try reflexivity.
  cbn [mapString hasHexPrefix].
  destruct (lowerChar_facts c) as (_ & _ & _ & _ & -> & _).
  destruct (lowerChar_facts d) as (_ & _ & _ & _ & _ & -> & _).
  reflexivity.
Qed.

Lemma dropHexPrefix_lower (s : string) :
  dropHexPrefix (toLowerCase s) = toLowerCase (dropHexPrefix s).
Proof. destruct s as [| c [| d r]]; reflexivity. Qed.

Lemma leadingDigits_lower (R : Z) (s : string) :
  leadingDigits R (toLowerCase s) = leadingDigits R s.
Proof.
  unfold toLowerCase. induction s as [| c r IH]; [reflexivity |].
  cbn [mapString leadingDigits].
  destruct (lowerChar_facts c) as (_ & -> & _).
  now rewrite IH.
Qed.

Lemma parseInt_lower (s : string) (radix : Z) :
  parseInt (toLowerCase s) radix = parseInt s radix.
Proof.
  unfold parseInt. rewrite trimStart_lower, stripSign_lower.
  destruct (stripSign (trimStart s)) as [sign s1]. cbn [fst snd].
  destruct (negb (radix =? 0) && ((radix <? 2) || (36 <? radix)));
    [reflexivity |].
  rewrite hasHexPrefix_lower.
  destruct ((radix =? 0) || (radix =? 16)); cbn [andb].
  - destruct (hasHexPrefix s1).
    + now rewrite dropHexPrefix_lower, leadingDigits_lower.
    + now rewrite leadingDigits_lower.
  - now rewrite leadingDigits_lower.
Qed.

Lemma matchChunks_lower (s : string) :
  matchChunks (toLowerCase s) = map toLowerCase (matchChunks s).
Proof.
  induction s as [| c r Hc IH | c Hc | c d r Hc IH]
    using matchChunks_induction.
  - reflexivity.
  - rewrite (matchChunks_terminator c) by assumption.
    unfold toLowerCase in *. cbn [mapString].
    rewrite matchChunks_terminator; [assumption |].
    now rewrite (proj1 (lowerChar_facts c)).
  - rewrite (matchChunks_single c) by assumption.
    unfold toLowerCase. cbn [mapString map].
    apply matchChunks_single. now rewrite (proj1 (lowerChar_facts c)).
  - rewrite (matchChunks_two c) by assumption.
    unfold toLowerCase in *. cbn [mapString map].
    rewrite matchChunks_two by now rewrite (proj1 (lowerChar_facts c)).
    rewrite (proj1 (lowerChar_facts d)), IH.
    now destruct (isLineTerminator d).
Qed.

End ParseInt16.

(** X11.  On strings of characters below U+0100, which are the
    strings of this development, the hex decoder does not depend on the
    case of the letters: a string and its lower-case form are decoded
    alike, so on such a line the lower-casing in the main function
    changes no byte.  (From U+0100 on, lower-casing can change the
    number of code units of a line; such lines are not covered.) *)
Theorem hexToBytes_case_insensitive (s : string) :
  hexToBytes (toLowerCase s) = hexToBytes s
  /\ hexToBytes (cleanHex s) = hexToBytes (removeWhiteSpace s).
Proof.
  assert (H : forall t, hexToBytes (toLowerCase t) = hexToBytes t).
  { intros t. unfold hexToBytes, match_1_2. rewrite matchChunks_lower.
    destruct (matchChunks t) as [| c cs]; [reflexivity |].
    cbn [map]. rewrite parseInt_lower, map_map. do 2 f_equal.
    apply map_ext. intros x. apply parseInt_lower. }
  split; [apply H | apply H].
Qed.

Section CleanLine.

Lemma removeWhiteSpace_clean (s : string) :
  noWhiteSpace s = true -> removeWhiteSpace s = s.
Proof.
  unfold noWhiteSpace. induction s as [| c r IH]; [reflexivity |].
  cbn [allChars removeWhiteSpace]. intros H.
  apply andb_true_iff in H. destruct H as [Hc Hr].
  apply negb_true_iff in Hc. rewrite Hc. now rewrite IH.
Qed.

Lemma toLowerCase_idempotent (s : string) :
  toLowerCase (toLowerCase s) = toLowerCase s.
Proof.
  unfold toLowerCase. induction s as [| c r IH]; [reflexivity |].
  cbn [mapString]. rewrite IH.
  now rewrite (proj2 (proj2 (proj2 (proj2 (proj2 (proj2
                 (lowerChar_facts c))))))).
Qed.

Lemma removeWhiteSpace_app (a b : string) :
  removeWhiteSpace (a ++ b) = (removeWhiteSpace a ++ removeWhiteSpace b)%string.
Proof.
  induction a as [| c r IH]; [reflexivity |].
  cbn [append removeWhiteSpace].
  destruct (isWhiteSpace c); [exact IH |].
  cbn [append]. now rewrite IH.
Qed.

Lemma cleanHex_idempotent (s : string) : cleanHex (cleanHex s) = cleanHex s.
Proof.
  unfold cleanHex at 1.
  rewrite removeWhiteSpace_clean by apply cleanHex_noWhiteSpace.
  unfold cleanHex. apply toLowerCase_idempotent.
Qed.

End CleanLine.

(** X12.  Cleaning a line twice is cleaning it once, and the run of the
    main function depends on the cleaned line only: a line and its
    cleaned form give the same run, and so do two lines that differ by a
    white space character. *)
Theorem main_ignores_white_space :
  (forall s, cleanHex (cleanHex s) = cleanHex s)
  /\ (forall s, main (cleanHex s) = main s)
  /\ (forall a b c,
         isWhiteSpace c = true -> main (a ++ String c b) = main (a ++ b)).
Proof.
  split; [apply cleanHex_idempotent |]. split.
  - intros s. unfold main. now rewrite cleanHex_idempotent.
  - intros a b c Hc. unfold main, cleanHex.
    rewrite !removeWhiteSpace_app. cbn [removeWhiteSpace].
    now rewrite Hc.
Qed.

Lemma main_ignores_white_space_witness :
  main ("AB CD" ++ String " " "E") = main ("AB CD" ++ "E").
Proof.
  exact (proj2 (proj2 main_ignores_white_space) "AB CD" "E" " "%char eq_refl).
Defined.

Section ParseBounds.

Lemma digitValue_range (c : ascii) (d : Z) :
  digitValue c = Some d -> 0 <= d < 36.
Proof.
  unfold digitValue, between.
  destruct ((48 <=? code c) && (code c <=? 57)) eqn:E1;
    [intros H; injection H as <-; lia |].
  destruct ((97 <=? code c) && (code c <=? 122)) eqn:E2;
    [intros H; injection H as <-; lia |].
  destruct ((65 <=? code c) && (code c <=? 90)) eqn:E3;
    [intros H; injection H as <-; lia | discriminate].
Qed.

Lemma leadingDigits_16 (s : string) :
  Forall (fun d => 0 <= d < 16) (leadingDigits 16 s)
  /\ (List.length (leadingDigits 16 s) <= String.length s)%nat.
Proof.
  induction s as [| c r [IH1 IH2]]; [split; [constructor | simpl; lia] |].
  cbn [leadingDigits].
  destruct (digitValue c) as [d |] eqn:E;
    [| split; [constructor | simpl; lia]].
  destruct (d <? 16) eqn:L; [| split; [constructor | simpl; lia]].
  apply Z.ltb_lt in L. pose proof (digitValue_range c d E).
  split; [constructor; [lia | assumption] | simpl; lia].
Qed.

Lemma trimStart_length (s : string) :
  (String.length (trimStart s) <= String.length s)%nat.
Proof.
  induction s as [| c r IH]; [simpl; lia |].
  cbn [trimStart]. destruct (isWhiteSpace c); simpl in *; lia.
Qed.

Lemma stripSign_length (s : string) :
  (fst (stripSign s) = 1
   /\ (String.length (snd (stripSign s)) <= String.length s)%nat)
  \/ (fst (stripSign s) = -1
      /\ (S (String.length (snd (stripSign s))) <= String.length s)%nat).
Proof.
  destruct s as [| c r]; [left; simpl; split; [reflexivity | lia] |].
  cbn [stripSign]. destruct (code c =? 45); [right; simpl; split; [reflexivity | lia] |].
  destruct (code c =? 43); left; simpl; split; try reflexivity; lia.
Qed.

Lemma dropHexPrefix_length (s : string) :
  (String.length (dropHexPrefix s) <= String.length s)%nat.
Proof. destruct s as [| c [| d r]]; simpl; lia. Qed.

(** A chunk of at most two characters is parsed to NaN, to a zero or to
    an integer from -15 to 255. *)
Lemma parseInt_decodable (s : string) :
  (String.length s <= 2)%nat -> decodable (parseInt s 16).
Proof.
  intros Hs. rewrite parseInt_16.
  pose proof (trimStart_length s) as Ht.
  pose proof (stripSign_length (trimStart s)) as Hsign.
  destruct (stripSign (trimStart s)) as [sign s1]. cbn [fst snd] in Hsign.
  cbv zeta.
  set (s2 := if hasHexPrefix s1 then dropHexPrefix s1 else s1).
  assert (H2 : (String.length s2 <= String.length s1)%nat).
  { subst s2. destruct (hasHexPrefix s1);
      [apply dropHexPrefix_length | lia]. }
  destruct (leadingDigits_16 s2) as [Hd Hl].
  destruct (leadingDigits 16 s2) as [| d [| e [| f ds]]]; simpl in Hl.
  - exact I.
  - inversion Hd as [| ? ? Rd _]; subst.
    cbn [fold_left].
    destruct (0 * 16 + d =? 0);
      [destruct (sign =? -1); simpl; [exact I | lia] |].
    simpl. destruct Hsign as [[-> _] | [-> _]]; lia.
  - inversion Hd as [| ? ? Rd Hd']; subst.
    inversion Hd' as [| ? ? Re _]; subst.
    cbn [fold_left].
    destruct ((0 * 16 + d) * 16 + e =? 0);
      [destruct (sign =? -1); simpl; [exact I | lia] |].
    simpl. destruct Hsign as [[-> _] | [-> Hlen]]; lia.
  - lia.
Qed.

End ParseBounds.

(** X13.  The hex decoder throws nothing but the [TypeError], and throws
    it exactly on the strings without a character other than a line
    terminator (the empty string among them).  On every other string it
    returns an array that is not empty, has at most one element for each
    character, and holds only NaN, the negative zero and integers from
    -15 to 255. *)
Theorem hexToBytes_results (s : string) :
  (hexToBytes s = inl TypeError <-> allChars isLineTerminator s = true)
  /\ (forall e, hexToBytes s = inl e -> e = TypeError)
  /\ (forall bytes,
         hexToBytes s = inr bytes ->
         bytes <> []
         /\ (List.length bytes <= String.length s)%nat
         /\ Forall decodable bytes).
Proof.
  pose proof (matchChunks_nil s) as Hnil.
  destruct (matchChunks_lengths s) as [Hlen Hcount].
  unfold hexToBytes, match_1_2.
  destruct (matchChunks s) as [| c cs] eqn:E.
  - split; [split; [intros _; now apply Hnil | reflexivity] |].
    split; [intros e H; now injection H as <- | discriminate].
  - split.
    { split; [discriminate |]. intros H. apply Hnil in H. discriminate. }
    split; [discriminate |].
    intros bytes H. injection H as <-.
    split; [discriminate |].
    split;
      [rewrite <- (length_map (fun b => parseInt b 16)) in Hcount;
       exact Hcount |].
    change (Forall decodable (map (fun b => parseInt b 16) (c :: cs))).
    apply Forall_map. revert Hlen. apply Forall_impl.
    intros chunk Hc. apply parseInt_decodable. lia.
Qed.

Lemma hexToBytes_results_witness :
  allChars isLineTerminator (String "010"%char EmptyString) = true
  /\ hexToBytes (String "010"%char EmptyString) = inl TypeError
  /\ hexToBytes "-f0x1z" = inr [Int (-15); NaN; Int 1]
  /\ Forall decodable [Int (-15); NaN; Int 1].
Proof.
  split; [reflexivity |].
  split;
    [exact (proj2 (proj1 (hexToBytes_results (String "010"%char EmptyString)))
              eq_refl) |].
  assert (E : hexToBytes "-f0x1z" = inr [Int (-15); NaN; Int 1])
    by reflexivity.
  split; [exact E |].
  exact (proj2 (proj2 (proj2 (proj2 (hexToBytes_results "-f0x1z")) _ E))).
Defined.

Section HexDigits.

Lemma hexDigit_facts (c : ascii) :
  isHexDigit c = true ->
  isWhiteSpace c = false
  /\ (code c =? 45) = false /\ (code c =? 43) = false
  /\ (code c =? 120) || (code c =? 88) = false
  /\ exists v, digitValue c = Some v /\ 0 <= v < 16
               /\ hexDigitOf false v = lowerChar c.
Proof.
  assert (H : implb (isHexDigit c)
                (negb (isWhiteSpace c) && negb (code c =? 45)
                 && negb (code c =? 43)
                 && negb ((code c =? 120) || (code c =? 88))
                 && match digitValue c with
                    | Some v => (0 <=? v) && (v <? 16)
                                && Ascii.eqb (hexDigitOf false v) (lowerChar c)
                    | None => false
                    end) = true)
    by (destruct c as [[|] [|] [|] [|] [|] [|] [|] [|]];
        vm_compute; reflexivity).
  intros Hc. rewrite Hc in H. cbn [implb] in H.
  repeat (apply andb_true_iff in H; destruct H as [H ?]).
  destruct (digitValue c) as [v |]; [| discriminate].
  repeat match goal with
         | X : negb _ = true |- _ => apply negb_true_iff in X
         | X : _ && _ = true |- _ => apply andb_true_iff in X; destruct X
         end.
  repeat split; try assumption.
  exists v. split; [reflexivity |]. split; [lia |].
  now apply Ascii.eqb_eq.
Qed.

Lemma not_hexDigit_stops (d : ascii) (r : string) :
  isHexDigit d = false -> leadingDigits 16 (String d r) = [].
Proof.
  unfold isHexDigit. intros H. cbn [leadingDigits].
  destruct (digitValue d) as [v |]; [now rewrite H | reflexivity].
Qed.

Lemma Int_of_mathInt (m : Z) :
  (if m =? 0 then (if 1 =? -1 then NegZero else Int 0) else Int (1 * m))
  = Int m.
Proof.
  destruct (m =? 0) eqn:E.
  - apply Z.eqb_eq in E. now subst.
  - now rewrite Z.mul_1_l.
Qed.

Variables c d : ascii.
Hypothesis Hc : isHexDigit c = true.

Lemma parseInt_one_digit :
  exists v, digitValue c = Some v /\ 0 <= v < 16
            /\ parseInt (String c EmptyString) 16 = Int v.
Proof.
  destruct (hexDigit_facts c Hc) as (Hw & Hm & Hp & _ & v & Hv & Rv & _).
  exists v. split; [exact Hv |]. split; [exact Rv |].
  rewrite parseInt_16. cbn [trimStart]. rewrite Hw.
  cbn [stripSign]. rewrite Hm, Hp.
  cbn [hasHexPrefix leadingDigits]. rewrite Hv.
  replace (v <? 16) with true by (symmetry; apply Z.ltb_lt; lia).
  cbn [fold_left]. cbv zeta. rewrite Int_of_mathInt. f_equal; lia.
Qed.

Lemma parseInt_two_digits :
  isHexDigit d = true ->
  exists v w, digitValue c = Some v /\ digitValue d = Some w
              /\ 0 <= v < 16 /\ 0 <= w < 16
              /\ parseInt (String c (String d EmptyString)) 16
                 = Int (v * 16 + w).
Proof.
  intros Hd.
  destruct (hexDigit_facts c Hc) as (Hw & Hm & Hp & _ & v & Hv & Rv & _).
  destruct (hexDigit_facts d Hd) as (_ & _ & _ & Hx & w & Hw' & Rw & _).
  exists v, w. repeat split; try assumption; try lia.
  rewrite parseInt_16. cbn [trimStart]. rewrite Hw.
  cbn [stripSign]. rewrite Hm, Hp.
  cbn [hasHexPrefix]. rewrite Hx, andb_false_r.
  cbn [leadingDigits]. rewrite Hv, Hw'.
  replace (v <? 16) with true by (symmetry; apply Z.ltb_lt; lia).
  replace (w <? 16) with true by (symmetry; apply Z.ltb_lt; lia).
  cbn [fold_left]. cbv zeta. rewrite Int_of_mathInt. f_equal; lia.
Qed.

Lemma parseInt_digit_then_other :
  isHexDigit d = false ->
  parseInt (String c (String d EmptyString)) 16
  = if hasHexPrefix (String c (String d EmptyString)) then NaN
    else parseInt (String c EmptyString) 16.
Proof.
  intros Hd.
  destruct (hexDigit_facts c Hc) as (Hw & Hm & Hp & _ & v & Hv & Rv & _).
  rewrite !parseInt_16. cbn [trimStart]. rewrite Hw.
  cbn [stripSign]. rewrite Hm, Hp.
  destruct (hasHexPrefix (String c (String d EmptyString))) eqn:Hx.
  - reflexivity.
  - change (hasHexPrefix (String c EmptyString)) with false. cbv iota zeta.
    cbn [leadingDigits]. rewrite Hv.
    replace (v <? 16) with true by (symmetry; apply Z.ltb_lt; lia).
    fold (leadingDigits 16 (String d EmptyString)).
    now rewrite (not_hexDigit_stops d EmptyString Hd).
Qed.

End HexDigits.

(** X14.  On a string of two characters that starts with a hexadecimal
    digit and whose second character is not one, the hex decoder returns
    one number, the value of the first digit alone, below 16: the second
    character is dropped without an error.  The strings "0x" and "0X"
    are the exception and give NaN. *)
Theorem hex_chunk_partial_parse (c d : ascii) :
  isHexDigit c = true -> isHexDigit d = false ->
  exists v,
    digitValue c = Some v /\ 0 <= v < 16
    /\ hexToBytes (String c (String d EmptyString))
       = inr [if (code c =? 48) && ((code d =? 120) || (code d =? 88))
              then NaN else Int v].
Proof.
  intros Hc Hd.
  destruct (parseInt_one_digit c Hc) as (v & Hv & Rv & E1).
  exists v. split; [exact Hv |]. split; [exact Rv |].
  destruct (hexDigit_facts c Hc) as (Hw & _).
  assert (Hlc : isLineTerminator c = false)
    by now apply white_not_terminator.
  unfold hexToBytes, match_1_2.
  rewrite matchChunks_two by assumption.
  destruct (isLineTerminator d) eqn:Hld; cbn [matchChunks map].
  - assert (Hx : (code d =? 120) || (code d =? 88) = false)
      by (unfold isLineTerminator in Hld; lia).
    now rewrite Hx, andb_false_r, E1.
  - rewrite (parseInt_digit_then_other c d Hc Hd), E1.
    reflexivity.
Qed.

Lemma hex_chunk_partial_parse_witness :
  hexToBytes "1z" = inr [Int 1] /\ hexToBytes "0x" = inr [NaN].
Proof.
  destruct (hex_chunk_partial_parse "1" "z" eq_refl eq_refl)
    as (v & Hv & _ & E).
  injection Hv as <-.
  destruct (hex_chunk_partial_parse "0" "x" eq_refl eq_refl)
    as (w & Hw & _ & F).
  injection Hw as <-.
  split; [exact E | exact F].
Defined.

Section WellFormedHex.

Lemma hex_noWhiteSpace (s : string) :
  allChars isHexDigit s = true -> noWhiteSpace s = true.
Proof.
  unfold noWhiteSpace. induction s as [| c r IH]; [reflexivity |].
  cbn [allChars]. intros H. apply andb_true_iff in H. destruct H as [Hc Hr].
  destruct (hexDigit_facts c Hc) as (-> & _). now rewrite IH.
Qed.

Lemma hexOfBytes_cons (upper : bool) (b : Z) (bs : list Z) :
  hexOfBytes upper (b :: bs) = (hexPair upper b ++ hexOfBytes upper bs)%string.
Proof.
  unfold hexOfBytes. cbn [map String.concat].
  destruct (map (hexPair upper) bs); reflexivity.
Qed.

(** Every chunk of a string of hexadecimal digits is parsed to an
    octet. *)
Lemma pairs_hex_octets (s : string) :
  allChars isHexDigit s = true ->
  Forall (fun chunk => isOctet (chunkValue chunk)
                       /\ parseInt chunk 16 = Int (chunkValue chunk))
         (pairs s).
Proof.
  induction s as [| c | c d r IH] using string_pairs_ind; intros H.
  - constructor.
  - cbn [allChars] in H. rewrite andb_true_r in H.
    destruct (parseInt_one_digit c H) as (v & _ & Rv & E).
    cbn [pairs]. constructor; [| constructor].
    unfold chunkValue. rewrite E.
    split; [unfold isOctet; lia | reflexivity].
  - cbn [allChars] in H.
    apply andb_true_iff in H. destruct H as [Hc H].
    apply andb_true_iff in H. destruct H as [Hd Hr].
    destruct (parseInt_two_digits c d Hc Hd) as (v & w & _ & _ & Rv & Rw & E).
    cbn [pairs]. constructor; [| now apply IH].
    unfold chunkValue. rewrite E.
    split; [unfold isOctet; lia | reflexivity].
Qed.

Lemma hexOfBytes_pairs (s : string) :
  allChars isHexDigit s = true -> Nat.even (String.length s) = true ->
  hexOfBytes false (map chunkValue (pairs s)) = toLowerCase s.
Proof.
  induction s as [| c | c d r IH] using string_pairs_ind; intros H Heven.
  - reflexivity.
  - discriminate.
  - cbn [allChars] in H.
    apply andb_true_iff in H. destruct H as [Hc H].
    apply andb_true_iff in H. destruct H as [Hd Hr].
    destruct (parseInt_two_digits c d Hc Hd)
      as (v & w & Hv & Hw & Rv & Rw & E).
    destruct (hexDigit_facts c Hc) as (_ & _ & _ & _ & v' & Hv' & _ & Lc).
    destruct (hexDigit_facts d Hd) as (_ & _ & _ & _ & w' & Hw' & _ & Ld).
    assert (v' = v) by congruence. assert (w' = w) by congruence. subst.
    cbn [pairs map]. rewrite hexOfBytes_cons, IH by assumption.
    unfold chunkValue. rewrite E. unfold hexPair.
    replace ((v * 16 + w) / 16) with v
      by (Z.to_euclidean_division_equations; lia).
    replace ((v * 16 + w) mod 16) with w
      by (Z.to_euclidean_division_equations; lia).
    rewrite Lc, Ld. reflexivity.
Qed.

End WellFormedHex.

(** X15.  A string of hexadecimal digits that is not empty is decoded
    to a buffer of 8-bit values, one for each pair of digits and one
    for a last single digit; when the number of digits is even, writing
    the bytes back as pairs of lower-case hexadecimal digits gives the
    string in lower case. *)
Theorem hexToBytes_of_hex_digits (s : string) :
  s <> EmptyString -> allChars isHexDigit s = true ->
  exists bs : list Z,
    hexToBytes s = inr (map Int bs)
    /\ Forall isOctet bs
    /\ RawBuffer (map Int bs)
    /\ List.length bs = Nat.div2 (S (String.length s))
    /\ (Nat.even (String.length s) = true ->
        hexOfBytes false bs = toLowerCase s).
Proof.
  intros Hne Hhex.
  pose proof (pairs_hex_octets s Hhex) as Hp.
  exists (map chunkValue (pairs s)).
  assert (Ho : Forall isOctet (map chunkValue (pairs s))).
  { apply Forall_map. revert Hp. apply Forall_impl. now intros x [H _]. }
  split; [| split; [exact Ho | split; [| split]]].
  - rewrite hexToBytes_pairs by (try assumption; now apply hex_noWhiteSpace).
    f_equal. rewrite map_map. apply map_ext_in.
    intros x Hx. rewrite Forall_forall in Hp. now apply Hp.
  - unfold RawBuffer. apply forallb_forall. intros x Hx.
    apply in_map_iff in Hx. destruct Hx as (b & <- & Hb).
    rewrite Forall_forall in Ho. specialize (Ho b Hb).
    unfold isOctet in Ho. simpl. lia.
  - rewrite length_map. apply length_pairs.
  - now apply hexOfBytes_pairs.
Qed.

Lemma hexToBytes_of_hex_digits_witness :
  "001B44113Ab7" <> EmptyString
  /\ allChars isHexDigit "001B44113Ab7" = true
  /\ exists bs,
       hexToBytes "001B44113Ab7" = inr (map Int bs)
       /\ List.length bs = 6%nat
       /\ hexOfBytes false bs = "001b44113ab7".
Proof.
  assert (Hne : "001B44113Ab7" <> EmptyString) by discriminate.
  assert (Hh : allChars isHexDigit "001B44113Ab7" = true) by reflexivity.
  split; [exact Hne |]. split; [exact Hh |].
  destruct (hexToBytes_of_hex_digits "001B44113Ab7" Hne Hh)
    as (bs & E & _ & _ & L & R).
  exists bs. split; [exact E |]. split; [exact L |].
  exact (eq_trans (R eq_refl) eq_refl).
Defined.

Lemma matchChunks_app_terminator (a b : string) (c : ascii) :
  isLineTerminator c = true ->
  matchChunks (a ++ String c b) = (matchChunks a ++ matchChunks b)%list.
Proof.
  intros Hc.
  induction a as [| x r Hx IH | x Hx | x y r Hx IH]
    using matchChunks_induction.
  - cbn [append app]. now apply matchChunks_terminator.
  - cbn [append]. now rewrite !(matchChunks_terminator x) by assumption.
  - cbn [append]. rewrite matchChunks_two, matchChunks_single by assumption.
    now rewrite Hc.
  - cbn [append]. rewrite !(matchChunks_two x y) by assumption.
    now rewrite IH.
Qed.

(** X16.  A line terminator inside the string given to the hex decoder
    separates it into two strings that are decoded on their own: the
    array is that of the first followed by that of the second, the
    pairing of the digits starts again after the terminator, and a part
    without a character to match adds nothing. *)
Theorem hexToBytes_line_terminator (a b : string) (c : ascii) :
  isLineTerminator c = true ->
  hexToBytes (a ++ String c b)
  = match hexToBytes a, hexToBytes b with
    | inr xs, inr ys => inr (xs ++ ys)%list
    | inr xs, inl _ => inr xs
    | inl _, r => r
    end.
Proof.
  intros Hc. unfold hexToBytes, match_1_2.
  rewrite (matchChunks_app_terminator a b c Hc).
  destruct (matchChunks a) as [| x xs]; [reflexivity |].
  destruct (matchChunks b) as [| y ys].
  - now rewrite app_nil_r.
  - cbn [app]. now rewrite <- map_app.
Qed.

Lemma hexToBytes_line_terminator_witness :
  hexToBytes ("abc" ++ String "010"%char "def")
  = inr [Int 171; Int 12; Int 222; Int 15].
Proof.
  exact (eq_trans
           (hexToBytes_line_terminator "abc" "def" "010"%char eq_refl)
           eq_refl).
Defined.

(* ===================================================================== *)
(** ** What the report of the Ethernet frame shows                       *)
(* ===================================================================== *)

Lemma type_four_digits (hi lo : Z) :
  isOctet hi -> isOctet lo ->
  padStart (toStringRadix (Int (be16 hi lo)) 16) 4 "0"
  = hexOfBytes false [hi; lo].
Proof.
  intros Hhi Hlo. apply String.eqb_eq.
  apply (for_all_octets
    (fun lo => String.eqb
                 (padStart (toStringRadix (Int (be16 hi lo)) 16) 4 "0")
                 (hexOfBytes false [hi; lo]))); [| exact Hlo].
  apply (for_all_octets
    (fun hi => forallb
                 (fun lo => String.eqb
                              (padStart (toStringRadix (Int (be16 hi lo)) 16)
                                 4 "0")
                              (hexOfBytes false [hi; lo])) octets));
    [vm_compute; reflexivity | exact Hhi].
Qed.

(** X17.  On a frame of at least 14 bytes the main function first
    writes four lines: the heading, the destination and the source
    address as colon-separated upper-case hexadecimal bytes, and the
    type as [0x] followed by the four lower-case hexadecimal digits of
    bytes 12-13. *)
Theorem ethernet_report_lines (bytes : list number) :
  RawBuffer bytes -> (14 <= List.length bytes)%nat ->
  let report :=
    [Log (LF ++ "=== Ethernet Frame ===");
     Log ("Destination MAC: " ++ colonHex (octetsAt bytes 0 6));
     Log ("Source MAC:      " ++ colonHex (octetsAt bytes 6 6));
     Log ("Type:            0x" ++ hexOfBytes false (octetsAt bytes 12 2))] in
  exists eth rest c,
    parseEthernetFrame bytes = inr eth
    /\ lines (reportEthernet eth) = report
    /\ mainDecode bytes = ended (report ++ rest) c.
Proof.
  intros Hb Hlen report.
  destruct (RawBuffer_slice bytes Hb 0 6) as [E0 F0]; [lia | lia |].
  destruct (RawBuffer_slice bytes Hb 6 12) as [E6 F6]; [lia | lia |].
  destruct (RawBuffer_idx bytes 12 Hb) as [_ R12]; [lia |].
  destruct (RawBuffer_idx bytes 13 Hb) as [_ R13]; [lia |].
  assert (Et : pair16 bytes 12 = be16 (octet bytes 12) (octet bytes 13))
    by (apply (pair16_be16 bytes 12); [assumption | simpl; lia]).
  destruct (parseEthernetFrame bytes) as [e | eth] eqn:Ee.
  { destruct (parseEthernetFrame_long bytes Hlen) as (eth & E' & _).
    congruence. }
  assert (Hr : lines (reportEthernet eth) = report).
  { revert Ee. unfold parseEthernetFrame. length_test.
    intros Ee. injection Ee as <-. subst report.
    unfold reportEthernet, lines.
    cbn [Eth.destMAC Eth.srcMAC Eth.type fst bind log app].
    change 0 with (Z.of_nat 0) at 1. change 6 with (Z.of_nat 6) at 1 2.
    change 12 with (Z.of_nat 12) at 1.
    rewrite E0, E6, Et, !bytesToMAC_colonHex by assumption.
    rewrite type_four_digits by assumption.
    reflexivity. }
  destruct (mainDecode_completions bytes) as (out & c & Hm & _).
  pose proof (mainDecode_afterEthernet bytes eth Ee) as Ha.
  rewrite Hm in Ha. apply (f_equal fst) in Ha.
  unfold ended in Ha. cbn [fst] in Ha.
  exists eth. eexists. exists c.
  split; [reflexivity |]. split; [exact Hr |].
  rewrite Hm, Ha, Hr. reflexivity.
Qed.

Lemma ethernet_report_lines_witness :
  RawBuffer scenarioA /\ (14 <= List.length scenarioA)%nat
  /\ exists rest c,
       mainDecode scenarioA
       = ended ([Log (LF ++ "=== Ethernet Frame ===");
                 Log "Destination MAC: FF:FF:FF:FF:FF:FF";
                 Log "Source MAC:      AA:AA:AA:AA:AA:AA";
                 Log "Type:            0x88b5"] ++ rest) c.
Proof.
  assert (Hb : RawBuffer scenarioA) by reflexivity.
  assert (Hl : (14 <= List.length scenarioA)%nat) by (simpl; lia).
  split; [exact Hb |]. split; [exact Hl |].
  destruct (ethernet_report_lines scenarioA Hb Hl) as (eth & rest & c & _ & _ & Hm).
  exists rest, c. exact Hm.
Defined.
